(** * module-tunnel-sink-new: the render worker, the two libpulse callbacks,
      the sink message handler and module activation / teardown.

    A shallow embedding of [src/modules/module-tunnel-sink-new.c].  The C
    functions become programs of a small state / trace / fault monad over
    [struct userdata]; every call into pulsecore or libpulse leaves an
    [event] in the trace, so that what the loop did can be read off. *)

From Stdlib Require Import ZArith List Bool Lia String.
Import ListNotations.

Set Implicit Arguments.

(** ** Plain data *)

(** Pointers to opaque objects (memory blocks, threads, pollers, ...). A
    pointer field of the C struct is an [option handle]; [None] is NULL. *)
Definition handle := N.

(** [pa_memchunk]: a reference to a memory block, a read offset, a length.
    [length] is a [size_t], hence never negative. *)
Module pa_memchunk.
Record t := mk { memblock : option handle; index : N; length : N }.
End pa_memchunk.

(** Modelled from the spec: pa_memchunk_reset (pulsecore/memchunk.c is not
    under src/) - "the cell reset to empty": no block, offset 0, length 0. *)
Definition pa_memchunk_reset : pa_memchunk.t :=
  pa_memchunk.mk None 0 0.

(** Modelled from the spec: pa_stream_state_t (pulse/def.h is not under
    src/).  The spec's data model gives the stream the states Created,
    Corked, Running, Failed and Terminated; the source names the last two. *)
Inductive pa_stream_state_t :=
| PA_STREAM_CREATED
| PA_STREAM_CORKED
| PA_STREAM_RUNNING
| PA_STREAM_FAILED
| PA_STREAM_TERMINATED.

(** Modelled from the spec: the macro PA_STREAM_IS_GOOD (pulse/def.h) - the
    stream state is "good" (Created/Corked/Running, not Failed/Terminated). *)
Definition PA_STREAM_IS_GOOD (x : pa_stream_state_t) : bool :=
  match x with
  | PA_STREAM_CREATED | PA_STREAM_CORKED | PA_STREAM_RUNNING => true
  | PA_STREAM_FAILED | PA_STREAM_TERMINATED => false
  end.

(** The connection states, as the switch of [context_state_callback] lists
    them. *)
Inductive pa_context_state_t :=
| PA_CONTEXT_UNCONNECTED
| PA_CONTEXT_CONNECTING
| PA_CONTEXT_AUTHORIZING
| PA_CONTEXT_SETTING_NAME
| PA_CONTEXT_READY
| PA_CONTEXT_FAILED
| PA_CONTEXT_TERMINATED.

(** The object behind a [pa_stream *]: an identity and its lifecycle state. *)
Record pa_stream := mk_stream
  { stream_id : handle; stream_state : pa_stream_state_t }.

(** The object behind a [pa_context *]. *)
Record pa_context := mk_context
  { context_id : handle; context_state : pa_context_state_t }.

(** Message codes that travel on the two queues of [pa_thread_mq]. *)
Inductive msg_code :=
| PA_MESSAGE_SHUTDOWN
| PA_CORE_MESSAGE_UNLOAD_MODULE
| PA_SINK_MESSAGE_GET_LATENCY
| SINK_MESSAGE_PASS_SOCKET
| SINK_MESSAGE_RIP_SOCKET
| OTHER_MESSAGE (code : Z).

Definition msg_code_eqb (a b : msg_code) : bool :=
  match a, b with
  | PA_MESSAGE_SHUTDOWN, PA_MESSAGE_SHUTDOWN => true
  | PA_CORE_MESSAGE_UNLOAD_MODULE, PA_CORE_MESSAGE_UNLOAD_MODULE => true
  | PA_SINK_MESSAGE_GET_LATENCY, PA_SINK_MESSAGE_GET_LATENCY => true
  | SINK_MESSAGE_PASS_SOCKET, SINK_MESSAGE_PASS_SOCKET => true
  | SINK_MESSAGE_RIP_SOCKET, SINK_MESSAGE_RIP_SOCKET => true
  | OTHER_MESSAGE x, OTHER_MESSAGE y => Z.eqb x y
  | _, _ => false
  end.

(** [pa_thread_mq]: the inbound queue (control thread to render thread) and
    the outbound one, each in post order. *)
Record pa_thread_mq := mk_mq { inq : list msg_code; outq : list msg_code }.

(** Which of the two queues a post goes to. *)
Inductive queue := Inq | Outq.

(** ** The trace: one event per call that leaves this file, and one per
    message the wait on the inbound queue lets go *)
Inductive event :=
| Call_pa_thread_mq_install
| Call_pa_rtclock_now
| Call_pa_sink_process_rewind (nbytes : N)
| Call_pa_stream_cork (s : handle) (b : Z)
| Call_pa_stream_writable_size (s : handle)
| Call_pa_sink_render (length : N)
| Call_pa_memblock_acquire (b : handle)
| Call_pa_stream_write (s b : handle) (index length : N) (offset : Z)
| Call_pa_memblock_release (b : handle)
| Call_pa_memblock_unref (b : handle)
| Call_pa_log_warn
| Call_pa_log_debug
| Call_pa_rtpoll_run
| Call_pa_asyncmsgq_post (q : queue) (code : msg_code)
| Call_pa_asyncmsgq_wait_for (code : msg_code)
| Call_pa_asyncmsgq_discard (code : msg_code)
| Call_pa_stream_unref (s : handle)
| Call_pa_context_unref (c : handle)
| Call_pa_stream_new_with_proplist (c s : handle)
| Call_pa_stream_set_state_callback (s : handle)
| Call_pa_stream_connect_playback (s : handle)
| Call_pa_context_connect (c : handle)
| Call_pa_stream_get_latency (s : handle)
| Call_pa_sink_process_msg (code : msg_code)
| Call_pa_log
| Call_pa_modargs_new (r : option handle)
| Call_pa_modargs_get_sample_spec_and_channel_map (ma : handle)
| Call_pa_modargs_get_proplist (ma : handle)
| Call_pa_modargs_free (ma : handle)
| Call_pa_xnew0
| Call_pa_xfree
| Call_pa_rtpoll_new (r : handle)
| Call_pa_rtpoll_free (r : handle)
| Call_pa_thread_mq_init
| Call_pa_thread_mq_done
| Call_pa_sink_new_data_init
| Call_pa_sink_new_data_set_name (name : string)
| Call_pa_sink_new_data_done
| Call_pa_sink_new (r : option handle)
| Call_pa_sink_set_asyncmsgq (s : handle)
| Call_pa_sink_set_rtpoll (s : handle)
| Call_pa_sink_put (s : handle)
| Call_pa_sink_unlink (s : handle)
| Call_pa_sink_unref (s : handle)
| Call_pa_proplist_new (p : handle)
| Call_pa_proplist_free (p : handle)
| Call_pa_context_new_with_proplist (r : option handle)
| Call_pa_context_set_state_callback (c : handle)
| Call_pa_context_disconnect (c : handle)
| Call_pa_stream_disconnect (s : handle)
| Call_pa_thread_new (r : option handle)
| Call_pa_thread_free (t : handle)
| Call_pa_asyncmsgq_send (code : msg_code).

(** Why a call did not return: a [pa_assert] that failed, or a NULL pointer
    handed to an operation that needs the object. *)
Inductive fault := AssertFailed | NullHandle.

(** ** The monad: a state, a trace of calls, faults *)

Section Monad.
Variable S : Type.

Inductive outcome (A : Type) :=
| Returns (a : A) (s : S) (tr : list event)
| Faults (f : fault) (tr : list event).
Arguments Faults {A} f tr.

Definition prog (A : Type) := S -> outcome A.

Definition ret {A} (a : A) : prog A := fun s => Returns a s [].

Definition bind {A B} (m : prog A) (k : A -> prog B) : prog B :=
  fun s =>
    match m s with
    | Returns a s1 t1 =>
        match k a s1 with
        | Returns b s2 t2 => Returns b s2 (t1 ++ t2)
        | Faults f t2 => Faults f (t1 ++ t2)
        end
    | Faults f t1 => Faults f t1
    end.

Definition get : prog S := fun s => Returns s s [].
Definition modify (f : S -> S) : prog unit := fun s => Returns tt (f s) [].
Definition emit (e : event) : prog unit := fun s => Returns tt s [e].
Definition abort {A} (f : fault) : prog A := fun _ => Faults f [].
Definition skip : prog unit := ret tt.

(** [pa_assert(c)]. *)
Definition pa_assert (c : bool) : prog unit :=
  if c then skip else abort AssertFailed.

(** The calls an outcome made, whether it returned or not. *)
Definition trace_of {A} (o : outcome A) : list event :=
  match o with
  | Returns _ _ tr => tr
  | Faults _ tr => tr
  end.

End Monad.

Arguments Returns {S A} a s tr.
Arguments Faults {S A} f tr.
Arguments ret {S A} a.
Arguments get {S}.
Arguments emit {S} e.
Arguments abort {S A} f.
Arguments skip {S}.
Arguments pa_assert {S} c.

Declare Scope prog_scope.
Delimit Scope prog_scope with prog.
Notation "x <- m ;; k" := (bind m (fun x => k))
  (at level 61, m at next level, right associativity) : prog_scope.
Notation "m ;; k" := (bind m (fun _ => k))
  (at level 61, right associativity) : prog_scope.
Open Scope prog_scope.

(** ** The host sink, as far as this file looks into it *)

(** [pa_sink_state_t] and the macros PA_SINK_IS_OPENED / PA_SINK_IS_LINKED
    live in pulsecore/sink.h, which is not under src/: the module is
    verified for any host that provides them. *)
Class HostSink := {
  pa_sink_state_t : Type;
  PA_SINK_IS_OPENED : pa_sink_state_t -> bool;
  PA_SINK_IS_LINKED : pa_sink_state_t -> bool
}.

(** What the environment answers during one pass of the loop in
    [thread_func]: the clock, the transport's writable size, the chunk the
    mixing graph renders, the result of the write and of the poll. *)
Record iter_env := mk_env
  { env_now : N;
    env_writable : N;
    env_rendered : pa_memchunk.t;
    env_write_ret : Z;
    env_poll_ret : Z }.

(** The answer of [pa_stream_get_latency]: its return value and the two
    out-parameters. *)
Record latency_reply := mk_latency
  { lat_ret : Z; lat_usec : N; lat_negative : bool }.

(** What a message handler hands back: its return value and what it stored
    through [data] ([None]: nothing stored). *)
Record msg_result := mk_result { msg_ret : Z; msg_data : option N }.

(** [pa_modargs]: the parsed key/value arguments. *)
Record pa_modargs := mk_modargs
  { ma_id : handle; ma_values : list (string * string) }.

(** Modelled from the spec: pa_modargs_get_value (pulsecore/modargs.c is not
    under src/) - the value of the key when the argument was given, the
    default otherwise (NULL for the remote endpoint: "missing remote
    endpoint"). *)
Fixpoint pa_modargs_get_value (kv : list (string * string)) (key : string)
    (def : option string) : option string :=
  match kv with
  | [] => def
  | (k, v) :: kv' =>
      if String.eqb k key then Some v else pa_modargs_get_value kv' key def
  end.

Definition DEFAULT_SINK_NAME : string := "remote_sink".

(** What the environment answers during [pa__init]: the parsed arguments
    (NULL when parsing fails), the results of the fallible calls, and the
    objects the allocators hand out (NULL when they fail). *)
Record init_env := mk_init_env
  { ie_modargs : option pa_modargs;
    ie_sample_spec_ret : Z;
    ie_rtpoll : handle;
    ie_proplist_ret : Z;
    ie_sink : option handle;
    ie_proplist : handle;
    ie_context : option handle;
    ie_connect_ret : Z;
    ie_thread : option handle }.

(** Where the render thread is after the samples it was given. *)
Inductive thread_status :=
| ThreadLooping
| ThreadWaiting
| ThreadExited.

Section Tunnel.
Context {host : HostSink}.

(** The part of [pa_sink] read here: [thread_info.state] and
    [thread_info.rewind_requested]. *)
Record pa_sink := mk_sink
  { sink_id : handle;
    thread_info_state : pa_sink_state_t;
    thread_info_rewind_requested : bool }.

(** [struct userdata], field for field. *)
Record userdata := mk_userdata
  { module : handle;
    sink : option pa_sink;
    rtpoll : option handle;
    thread_mq : pa_thread_mq;
    thread : option handle;
    memchunk : pa_memchunk.t;
    auto_desc : bool;
    channels : N;
    block_usec : N;
    timestamp : N;
    context : option pa_context;
    stream : option pa_stream;
    connected : bool }.

Definition set_sink (v : option pa_sink) (u : userdata) : userdata :=
  mk_userdata (module u) v (rtpoll u) (thread_mq u) (thread u) (memchunk u)
    (auto_desc u) (channels u) (block_usec u) (timestamp u) (context u)
    (stream u) (connected u).

Definition set_thread_mq (v : pa_thread_mq) (u : userdata) : userdata :=
  mk_userdata (module u) (sink u) (rtpoll u) v (thread u) (memchunk u)
    (auto_desc u) (channels u) (block_usec u) (timestamp u) (context u)
    (stream u) (connected u).

Definition set_memchunk (v : pa_memchunk.t) (u : userdata) : userdata :=
  mk_userdata (module u) (sink u) (rtpoll u) (thread_mq u) (thread u) v
    (auto_desc u) (channels u) (block_usec u) (timestamp u) (context u)
    (stream u) (connected u).

Definition set_timestamp (v : N) (u : userdata) : userdata :=
  mk_userdata (module u) (sink u) (rtpoll u) (thread_mq u) (thread u)
    (memchunk u) (auto_desc u) (channels u) (block_usec u) v (context u)
    (stream u) (connected u).

Definition set_context (v : option pa_context) (u : userdata) : userdata :=
  mk_userdata (module u) (sink u) (rtpoll u) (thread_mq u) (thread u)
    (memchunk u) (auto_desc u) (channels u) (block_usec u) (timestamp u) v
    (stream u) (connected u).

Definition set_stream (v : option pa_stream) (u : userdata) : userdata :=
  mk_userdata (module u) (sink u) (rtpoll u) (thread_mq u) (thread u)
    (memchunk u) (auto_desc u) (channels u) (block_usec u) (timestamp u)
    (context u) v (connected u).

Definition set_connected (v : bool) (u : userdata) : userdata :=
  mk_userdata (module u) (sink u) (rtpoll u) (thread_mq u) (thread u)
    (memchunk u) (auto_desc u) (channels u) (block_usec u) (timestamp u)
    (context u) (stream u) v.

Abbreviation uprog := (prog userdata).

(** *** Dereferences and calls into pulsecore *)

(** [u->sink->...]: the sink pointer is followed without a test. *)
Definition deref_sink : uprog pa_sink :=
  u <- get ;;
  match sink u with
  | Some s => ret s
  | None => abort NullHandle
  end.

(** Modelled from the spec: pa_sink_process_rewind (pulsecore/sink.c is not
    under src/) - "the core only drains the request": the pending request
    is cleared. *)
Definition pa_sink_process_rewind (nbytes : N) : uprog unit :=
  s <- deref_sink ;;
  emit (Call_pa_sink_process_rewind nbytes) ;;
  modify (set_sink
    (Some (mk_sink (sink_id s) (thread_info_state s) false))).

(** The clock and the poller answer what the environment says. *)
Definition pa_rtclock_now (e : iter_env) : uprog N :=
  emit Call_pa_rtclock_now ;; ret (env_now e).

(** Modelled from the spec: pa_sink_render (pulsecore/sink.c) - "a render
    pull function ... supplying a requested byte count and receiving a
    buffer cell": the cell is the one the environment renders. *)
Definition pa_sink_render (nbytes : N) (e : iter_env) : uprog unit :=
  _ <- deref_sink ;;
  emit (Call_pa_sink_render nbytes) ;;
  modify (set_memchunk (env_rendered e)).

(** Modelled from the spec: pa_memblock_acquire / _release / _unref
    (pulsecore/memblock.c) - "acquires a read pointer ... releases and drops
    the reference"; each needs a block. *)
Definition pa_memblock_acquire (b : option handle) : uprog handle :=
  match b with
  | Some h => emit (Call_pa_memblock_acquire h) ;; ret h
  | None => abort NullHandle
  end.

Definition pa_memblock_release (b : option handle) : uprog unit :=
  match b with
  | Some h => emit (Call_pa_memblock_release h)
  | None => abort NullHandle
  end.

Definition pa_memblock_unref (b : option handle) : uprog unit :=
  match b with
  | Some h => emit (Call_pa_memblock_unref h)
  | None => abort NullHandle
  end.

Definition pa_rtpoll_run (e : iter_env) : uprog Z :=
  emit Call_pa_rtpoll_run ;; ret (env_poll_ret e).

(** *** Calls into libpulse *)

(** Modelled from the spec: the stream operations of the client library
    (pulse/stream.c is not under src/).  The spec gives each of them a
    result for a stream (its state, whether it is corked, its writable
    size, the result of a write, its latency); the state set has no value
    for an absent stream, and the library's entry points assert their
    stream argument as the functions of this file assert theirs, so a call
    on NULL has no result: it faults. *)
Definition pa_stream_get_state (s : option pa_stream)
  : uprog pa_stream_state_t :=
  match s with
  | Some st => ret (stream_state st)
  | None => abort NullHandle
  end.

(** Modelled from the spec: pa_stream_is_corked (pulse/stream.c) - "if the
    stream is still corked": the stream is in the state Corked. *)
Definition pa_stream_is_corked (s : option pa_stream) : uprog bool :=
  match s with
  | Some st =>
      ret (match stream_state st with PA_STREAM_CORKED => true | _ => false end)
  | None => abort NullHandle
  end.

(** Modelled from the spec: pa_stream_cork (pulse/stream.c), called as
    [pa_stream_cork(s, 0, NULL, NULL)] - "uncork it (transition
    Corked -> Running)". *)
Definition pa_stream_cork (s : option pa_stream) (b : Z) : uprog unit :=
  match s with
  | Some st =>
      emit (Call_pa_stream_cork (stream_id st) b) ;;
      match stream_state st, Z.eqb b 0 with
      | PA_STREAM_CORKED, true =>
          modify (set_stream (Some (mk_stream (stream_id st) PA_STREAM_RUNNING)))
      | _, _ => skip
      end
  | None => abort NullHandle
  end.

(** Modelled from the spec: pa_stream_writable_size (pulse/stream.c) - "a
    non-blocking writable-size query"; the size is the environment's. *)
Definition pa_stream_writable_size (s : option pa_stream) (e : iter_env)
  : uprog N :=
  match s with
  | Some st => emit (Call_pa_stream_writable_size (stream_id st)) ;;
               ret (env_writable e)
  | None => abort NullHandle
  end.

(** Modelled from the spec: pa_stream_write (pulse/stream.c), called as
    [pa_stream_write(s, p + index, length, NULL, 0, PA_SEEK_RELATIVE)] - "a
    write-with-offset-and-seek-mode primitive"; its result is the
    environment's. *)
Definition pa_stream_write (s : option pa_stream) (p : handle)
    (index length : N) (offset : Z) (e : iter_env) : uprog Z :=
  match s with
  | Some st =>
      emit (Call_pa_stream_write (stream_id st) p index length offset) ;;
      ret (env_write_ret e)
  | None => abort NullHandle
  end.

(** Modelled from the spec: pa_stream_unref and pa_context_unref
    (pulse/stream.c, pulse/context.c) - the handle is "released". *)
Definition pa_stream_unref (s : option pa_stream) : uprog unit :=
  match s with
  | Some st => emit (Call_pa_stream_unref (stream_id st))
  | None => abort NullHandle
  end.

Definition pa_context_unref (c : option pa_context) : uprog unit :=
  match c with
  | Some ct => emit (Call_pa_context_unref (context_id ct))
  | None => abort NullHandle
  end.

(** Modelled from the spec: pa_stream_get_latency (pulse/stream.c) - "a
    latency query returning (latency, sign) or a not-available indicator";
    the reply is the environment's. *)
Definition pa_stream_get_latency (s : option pa_stream) (r : latency_reply)
  : uprog latency_reply :=
  match s with
  | Some st => emit (Call_pa_stream_get_latency (stream_id st)) ;; ret r
  | None => abort NullHandle
  end.

(** Modelled from the spec: pa_asyncmsgq_post and pa_asyncmsgq_wait_for
    (pulsecore/asyncmsgq.c is not under src/).  A post appends to the
    queue ("ordering within one queue direction is FIFO").  Waiting for a
    code takes the messages of the queue in order, "discarding other
    traffic, until" the code arrives: it answers [true] with the rest of
    the queue once the code is met, and [false] - still blocked - when the
    queue holds no such message. *)
Definition pa_asyncmsgq_post (q : queue) (code : msg_code) : uprog unit :=
  emit (Call_pa_asyncmsgq_post q code) ;;
  modify (fun u =>
    match q with
    | Inq => set_thread_mq (mk_mq (inq (thread_mq u) ++ [code])
                                  (outq (thread_mq u))) u
    | Outq => set_thread_mq (mk_mq (inq (thread_mq u))
                                   (outq (thread_mq u) ++ [code])) u
    end).

Fixpoint wait_for_loop (code : msg_code) (q : list msg_code)
  : uprog bool :=
  match q with
  | [] => modify (fun u => set_thread_mq (mk_mq [] (outq (thread_mq u))) u) ;;
          ret false
  | c :: q' =>
      if msg_code_eqb c code
      then modify (fun u => set_thread_mq (mk_mq q' (outq (thread_mq u))) u) ;;
           ret true
      else emit (Call_pa_asyncmsgq_discard c) ;; wait_for_loop code q'
  end.

Definition pa_asyncmsgq_wait_for (code : msg_code) : uprog bool :=
  emit (Call_pa_asyncmsgq_wait_for code) ;;
  u <- get ;;
  wait_for_loop code (inq (thread_mq u)).

(** ** thread_func *)

(** The condition of the [if] at lines 119-121, with the short-circuit
    order of [&&]: the stream state is asked for only when [connected]
    holds, the sink state only when the stream state is good. *)
Definition transmit_gate : uprog bool :=
  u <- get ;;
  if connected u then
    st <- pa_stream_get_state (stream u) ;;
    if PA_STREAM_IS_GOOD st then
      s <- deref_sink ;;
      ret (PA_SINK_IS_OPENED (thread_info_state s))
    else ret false
  else ret false.

(** The body of the branch guarded by [writeable > 0] (lines 129-151). *)
Definition render_and_write (writeable : N) (e : iter_env) : uprog unit :=
  u <- get ;;
  (if (pa_memchunk.length (memchunk u) <=? 0)%N
   then pa_sink_render writeable e
   else skip) ;;
  u <- get ;;
  pa_assert (0 <? pa_memchunk.length (memchunk u))%N ;;
  (* we have new data to write *)
  p <- pa_memblock_acquire (pa_memchunk.memblock (memchunk u)) ;;
  r <- pa_stream_write (stream u) p
         (pa_memchunk.index (memchunk u))
         (pa_memchunk.length (memchunk u)) 0 e ;;
  pa_memblock_release (pa_memchunk.memblock (memchunk u)) ;;
  pa_memblock_unref (pa_memchunk.memblock (memchunk u)) ;;
  modify (set_memchunk pa_memchunk_reset) ;;
  if negb (r =? 0)%Z then emit Call_pa_log_warn else skip.

(** The transmit branch (lines 122-153). *)
Definition transmit (e : iter_env) : uprog unit :=
  u <- get ;;
  c <- pa_stream_is_corked (stream u) ;;
  if c then pa_stream_cork (stream u) 0
  else
    writeable <- pa_stream_writable_size (stream u) e ;;
    if (0 <? writeable)%N then render_and_write writeable e else skip.

(** One pass of the [for(;;)] body; the value is what [pa_rtpoll_run]
    returned. *)
Definition thread_iter (e : iter_env) : uprog Z :=
  s <- deref_sink ;;
  (if thread_info_rewind_requested s
   then pa_sink_process_rewind 0 else skip) ;;
  s <- deref_sink ;;
  now <- (if PA_SINK_IS_OPENED (thread_info_state s)
          then pa_rtclock_now e else ret 0%N) ;;
  g <- transmit_gate ;;
  (if g then transmit e else skip) ;;
  pa_rtpoll_run e.

(** How the loop is left. *)
Inductive loop_exit := GotoFail | GotoFinish | OutOfSamples.

(** The [for(;;)] loop over the samples of the environment, one per pass. *)
Fixpoint thread_loop (envs : list iter_env) : uprog loop_exit :=
  match envs with
  | [] => ret OutOfSamples
  | e :: envs' =>
      r <- thread_iter e ;;
      if (r <? 0)%Z then ret GotoFail
      else if (r =? 0)%Z then ret GotoFinish
      else thread_loop envs'
  end.

(** The code after the label [fail] (lines 162-166), up to [finish]. *)
Definition thread_fail : uprog thread_status :=
  pa_asyncmsgq_post Outq PA_CORE_MESSAGE_UNLOAD_MODULE ;;
  got <- pa_asyncmsgq_wait_for PA_MESSAGE_SHUTDOWN ;;
  if got then emit Call_pa_log_debug ;; ret ThreadExited
  else ret ThreadWaiting.

Definition thread_func (t0 : N) (envs : list iter_env) : uprog thread_status :=
  emit Call_pa_log_debug ;;
  emit Call_pa_thread_mq_install ;;
  emit Call_pa_rtclock_now ;;
  modify (set_timestamp t0) ;;
  x <- thread_loop envs ;;
  match x with
  | OutOfSamples => ret ThreadLooping
  | GotoFail => thread_fail
  | GotoFinish => emit Call_pa_log_debug ;; ret ThreadExited
  end.

(** ** stream_state_callback *)

Definition ptr_eqb (a b : option handle) : bool :=
  match a, b with
  | None, None => true
  | Some x, Some y => N.eqb x y
  | _, _ => false
  end.

(** [strm] is the pointer libpulse passes.  After the assertion it is
    [u->stream], so its state is read from the object in that slot. *)
Definition stream_state_callback (strm : option handle) : uprog unit :=
  u <- get ;;
  pa_assert (ptr_eqb strm (option_map stream_id (stream u))) ;;
  st <- pa_stream_get_state (stream u) ;;
  match st with
  | PA_STREAM_FAILED =>
      emit Call_pa_log_debug ;;
      pa_stream_unref (stream u) ;;
      modify (set_stream None)
      (* TODO: think about killing the context or should we just try again
         a creationg of a stream ? *)
  | PA_STREAM_TERMINATED =>
      emit Call_pa_log_debug ;;
      pa_stream_unref (stream u) ;;
      modify (set_stream None)
  | _ => skip
  end.

(** ** context_state_callback *)

(** Modelled from the spec: pa_stream_new_with_proplist and
    pa_stream_connect_playback (pulse/stream.c) - the new stream is Created,
    and "connected for playback in a corked (paused) start state". *)
Definition pa_stream_new_with_proplist (c : option pa_context)
    (fresh : option handle) : uprog unit :=
  match c with
  | Some ct =>
      _ <- deref_sink ;;
      match fresh with
      | Some h =>
          emit (Call_pa_stream_new_with_proplist (context_id ct) h) ;;
          modify (set_stream (Some (mk_stream h PA_STREAM_CREATED)))
      | None => modify (set_stream None)
      end
  | None => abort NullHandle
  end.

Definition pa_stream_set_state_callback (s : option pa_stream) : uprog unit :=
  match s with
  | Some st => emit (Call_pa_stream_set_state_callback (stream_id st))
  | None => abort NullHandle
  end.

Definition pa_stream_connect_playback (s : option pa_stream) : uprog unit :=
  match s with
  | Some st =>
      emit (Call_pa_stream_connect_playback (stream_id st)) ;;
      modify (set_stream (Some (mk_stream (stream_id st) PA_STREAM_CORKED)))
  | None => abort NullHandle
  end.

Definition pa_context_get_state (c : option pa_context)
  : uprog pa_context_state_t :=
  match c with
  | Some ct => ret (context_state ct)
  | None => abort NullHandle
  end.

Definition is_null {A} (p : option A) : bool :=
  match p with None => true | Some _ => false end.

(** [c] is the pointer libpulse passes; [proplist] and [fresh] are what
    [pa_proplist_new] and [pa_stream_new_with_proplist] hand out. *)
Definition context_state_callback (c : option handle) (proplist : handle)
    (fresh : option handle) : uprog unit :=
  u <- get ;;
  pa_assert (ptr_eqb (option_map context_id (context u)) c) ;;
  st <- pa_context_get_state (context u) ;;
  match st with
  | PA_CONTEXT_UNCONNECTED
  | PA_CONTEXT_CONNECTING
  | PA_CONTEXT_AUTHORIZING
  | PA_CONTEXT_SETTING_NAME =>
      emit Call_pa_log_debug
  | PA_CONTEXT_READY =>
      emit Call_pa_log_debug ;;
      pa_assert (is_null (stream u)) ;;
      emit (Call_pa_proplist_new proplist) ;;
      pa_stream_new_with_proplist (context u) fresh ;;
      emit (Call_pa_proplist_free proplist) ;;
      u1 <- get ;;
      pa_stream_set_state_callback (stream u1) ;;
      pa_stream_connect_playback (stream u1) ;;
      pa_asyncmsgq_post Inq SINK_MESSAGE_PASS_SOCKET
  | PA_CONTEXT_FAILED =>
      emit Call_pa_log_debug ;;
      pa_context_unref (context u) ;;
      modify (set_context None) ;;
      modify (set_connected false)
  | PA_CONTEXT_TERMINATED =>
      emit Call_pa_log_debug ;;
      pa_context_unref (context u) ;;
      modify (set_context None) ;;
      modify (set_connected false)
  end.

(** ** sink_process_msg_cb *)

(** [r] is what [pa_stream_get_latency] answers, [host_ret] what the
    host's [pa_sink_process_msg] returns. *)
Definition sink_process_msg_cb (code : msg_code) (r : latency_reply)
    (host_ret : Z) : uprog msg_result :=
  match code with
  | PA_SINK_MESSAGE_GET_LATENCY =>
      s <- deref_sink ;;
      if negb (PA_SINK_IS_LINKED (thread_info_state s))
      then ret (mk_result 0 (Some 0%N))
      else
        u <- get ;;
        l <- pa_stream_get_latency (stream u) r ;;
        if (lat_ret l <? 0)%Z
        then ret (mk_result 0 (Some 0%N))
        else ret (mk_result 0 (Some (lat_usec l)))
             (* Add the latency from libpulse *)
  | SINK_MESSAGE_PASS_SOCKET =>
      modify (set_connected true) ;;
      ret (mk_result 0 None)
  | _ =>
      emit (Call_pa_sink_process_msg code) ;;
      ret (mk_result host_ret None)
  end.

(** ** pa__init and pa__done *)

(** The part of [pa_module] used here: its identity, and [m->userdata]. *)
Record pa_module := mk_module
  { module_id : handle; module_userdata : option userdata }.

Abbreviation mprog := (prog pa_module).

(** [pa_xnew0(struct userdata, 1)]: every field zero. *)
Definition userdata_zero : userdata :=
  mk_userdata 0%N None None (mk_mq [] []) None (pa_memchunk.mk None 0 0)
    false 0 0 0 None None false.

(** An assignment to a field of [u], where [u] is [m->userdata]. *)
Definition modify_u (f : userdata -> userdata) : mprog unit :=
  modify (fun m =>
    mk_module (module_id m) (option_map f (module_userdata m))).

Definition set_module (v : handle) (u : userdata) : userdata :=
  mk_userdata v (sink u) (rtpoll u) (thread_mq u) (thread u) (memchunk u)
    (auto_desc u) (channels u) (block_usec u) (timestamp u) (context u)
    (stream u) (connected u).

Definition set_rtpoll (v : option handle) (u : userdata) : userdata :=
  mk_userdata (module u) (sink u) v (thread_mq u) (thread u) (memchunk u)
    (auto_desc u) (channels u) (block_usec u) (timestamp u) (context u)
    (stream u) (connected u).

Definition set_thread (v : option handle) (u : userdata) : userdata :=
  mk_userdata (module u) (sink u) (rtpoll u) (thread_mq u) v (memchunk u)
    (auto_desc u) (channels u) (block_usec u) (timestamp u) (context u)
    (stream u) (connected u).

Definition when_some {A S} (p : option A) (k : A -> prog S unit)
  : prog S unit :=
  match p with
  | Some a => k a
  | None => skip
  end.

(** [pa__done]: nothing when [m->userdata] is NULL, else every object the
    struct still points to is let go, then the struct itself. *)
Definition pa__done : mprog unit :=
  m <- get ;;
  match module_userdata m with
  | None => ret tt
  | Some u =>
      when_some (sink u) (fun s => emit (Call_pa_sink_unlink (sink_id s))) ;;
      when_some (thread u) (fun t =>
        emit (Call_pa_asyncmsgq_send PA_MESSAGE_SHUTDOWN) ;;
        emit (Call_pa_thread_free t)) ;;
      emit Call_pa_thread_mq_done ;;
      when_some (stream u) (fun s =>
        emit (Call_pa_stream_disconnect (stream_id s))) ;;
      when_some (context u) (fun c =>
        emit (Call_pa_context_disconnect (context_id c))) ;;
      when_some (rtpoll u) (fun r => emit (Call_pa_rtpoll_free r)) ;;
      when_some (pa_memchunk.memblock (memchunk u)) (fun b =>
        emit (Call_pa_memblock_unref b)) ;;
      when_some (sink u) (fun s => emit (Call_pa_sink_unref (sink_id s))) ;;
      emit Call_pa_xfree
  end.

(** The code after the label [fail] of [pa__init], with the two locals it
    reads. *)
Definition init_fail (ma : option pa_modargs) (proplist : option handle)
  : mprog Z :=
  when_some ma (fun a => emit (Call_pa_modargs_free (ma_id a))) ;;
  when_some proplist (fun p => emit (Call_pa_proplist_free p)) ;;
  pa__done ;;
  ret (-1)%Z.

(** [pa__init] from the allocation of [u] on (lines 326-411);
    [remote_server] is known to be given. *)
Definition init_setup (e : init_env) (ma : pa_modargs)
    (sink0 sink1 : pa_sink_state_t) : mprog Z :=
  emit Call_pa_xnew0 ;;
  modify (fun m => mk_module (module_id m)
                     (Some (set_module (module_id m) userdata_zero))) ;;
  modify_u (set_memchunk pa_memchunk_reset) ;;
  emit (Call_pa_rtpoll_new (ie_rtpoll e)) ;;
  modify_u (set_rtpoll (Some (ie_rtpoll e))) ;;
  emit Call_pa_thread_mq_init ;;
  modify_u (set_thread_mq (mk_mq [] [])) ;;
  (* Create sink *)
  emit Call_pa_sink_new_data_init ;;
  emit (Call_pa_sink_new_data_set_name
          match pa_modargs_get_value (ma_values ma) "sink_name"
                  (Some DEFAULT_SINK_NAME) with
          | Some n => n
          | None => DEFAULT_SINK_NAME
          end) ;;
  emit (Call_pa_modargs_get_proplist (ma_id ma)) ;;
  if (ie_proplist_ret e <? 0)%Z then
    emit Call_pa_log ;;
    emit Call_pa_sink_new_data_done ;;
    init_fail (Some ma) None
  else
    emit (Call_pa_sink_new (ie_sink e)) ;;
    modify_u (set_sink
      (option_map (fun h => mk_sink h sink0 false) (ie_sink e))) ;;
    match ie_sink e with
    | None =>
        emit Call_pa_log ;;
        emit Call_pa_sink_new_data_done ;;
        init_fail (Some ma) None
    | Some sk =>
        emit Call_pa_sink_new_data_done ;;
        (* set thread queue *)
        emit (Call_pa_sink_set_asyncmsgq sk) ;;
        emit (Call_pa_sink_set_rtpoll sk) ;;
        emit (Call_pa_proplist_new (ie_proplist e)) ;;
        (* init libpulse *)
        emit (Call_pa_context_new_with_proplist (ie_context e)) ;;
        modify_u (set_context
          (option_map (fun h => mk_context h PA_CONTEXT_UNCONNECTED)
             (ie_context e))) ;;
        match ie_context e with
        | None =>
            emit Call_pa_log ;;
            init_fail (Some ma) (Some (ie_proplist e))
        | Some c =>
            emit (Call_pa_proplist_free (ie_proplist e)) ;;
            emit (Call_pa_context_set_state_callback c) ;;
            emit (Call_pa_context_connect c) ;;
            if (ie_connect_ret e <? 0)%Z then
              emit Call_pa_log ;;
              init_fail (Some ma) (Some (ie_proplist e))
            else
              emit (Call_pa_thread_new (ie_thread e)) ;;
              modify_u (set_thread (ie_thread e)) ;;
              match ie_thread e with
              | None =>
                  emit Call_pa_log ;;
                  init_fail (Some ma) (Some (ie_proplist e))
              | Some _ =>
                  emit (Call_pa_sink_put sk) ;;
                  modify_u (set_sink (Some (mk_sink sk sink1 false))) ;;
                  emit (Call_pa_modargs_free (ma_id ma)) ;;
                  ret 0%Z
              end
        end
    end.

(** [sink0] is the state a sink has when [pa_sink_new] returns it, [sink1]
    the state [pa_sink_put] leaves it in. *)
Definition pa__init (e : init_env) (sink0 sink1 : pa_sink_state_t)
  : mprog Z :=
  emit (Call_pa_modargs_new (option_map ma_id (ie_modargs e))) ;;
  match ie_modargs e with
  | None =>
      emit Call_pa_log ;;
      init_fail None None
  | Some ma =>
      emit (Call_pa_modargs_get_sample_spec_and_channel_map (ma_id ma)) ;;
      if (ie_sample_spec_ret e <? 0)%Z then
        emit Call_pa_log ;;
        init_fail (Some ma) None
      else
        match pa_modargs_get_value (ma_values ma) "remote_server" None with
        | None =>
            emit Call_pa_log ;;
            init_fail (Some ma) None
        | Some remote_server => init_setup e ma sink0 sink1
        end
  end.

(** ** The module at work: its entry points, in any order *)

(** The render thread makes one pass of its loop; libpulse reports a new
    state of the stream or of the connection through the callback it was
    given; a message reaches the sink's handler; the host changes what the
    sink's [thread_info] holds. *)
Inductive action :=
| Iterate (e : iter_env)
| StreamEvent (st : pa_stream_state_t)
| ContextEvent (st : pa_context_state_t) (proplist : handle)
    (fresh : option handle)
| Message (code : msg_code) (r : latency_reply) (host_ret : Z)
| SinkEvent (st : pa_sink_state_t) (rewind : bool).

Definition perform (a : action) : uprog unit :=
  match a with
  | Iterate e => _ <- thread_iter e ;; ret tt
  | StreamEvent st =>
      u <- get ;;
      match stream u with
      | Some s =>
          modify (set_stream (Some (mk_stream (stream_id s) st))) ;;
          stream_state_callback (Some (stream_id s))
      | None => skip
      end
  | ContextEvent st proplist fresh =>
      u <- get ;;
      match context u with
      | Some c =>
          modify (set_context (Some (mk_context (context_id c) st))) ;;
          context_state_callback (Some (context_id c)) proplist fresh
      | None => skip
      end
  | Message code r host_ret =>
      _ <- sink_process_msg_cb code r host_ret ;; ret tt
  | SinkEvent st rewind =>
      u <- get ;;
      match sink u with
      | Some k => modify (set_sink (Some (mk_sink (sink_id k) st rewind)))
      | None => skip
      end
  end.

Fixpoint run (acts : list action) : uprog unit :=
  match acts with
  | [] => ret tt
  | a :: acts' => perform a ;; run acts'
  end.

(** The passes of the loop during which the transport had room. *)
Fixpoint writable_passes (acts : list action) : nat :=
  match acts with
  | [] => 0
  | Iterate e :: acts' =>
      (if (0 <? env_writable e)%N then 1 else 0) + writable_passes acts'
  | _ :: acts' => writable_passes acts'
  end.

End Tunnel.

(** ** Reading a trace *)

Definition is_render (ev : event) : bool :=
  match ev with Call_pa_sink_render _ => true | _ => false end.

Definition is_write (ev : event) : bool :=
  match ev with Call_pa_stream_write _ _ _ _ _ => true | _ => false end.

(** The four calls of the transmit branch: uncork, writable-size query,
    render, write. *)
Definition is_transmit_call (ev : event) : bool :=
  match ev with
  | Call_pa_stream_cork _ _
  | Call_pa_stream_writable_size _
  | Call_pa_sink_render _
  | Call_pa_stream_write _ _ _ _ _ => true
  | _ => false
  end.

Definition is_connect (ev : event) : bool :=
  match ev with Call_pa_context_connect _ => true | _ => false end.

Definition count_calls (p : event -> bool) (tr : list event) : nat :=
  List.length (filter p tr).

(** Whether a cell is held after the calls of [tr], given whether one was
    held before: a render fills the cell, an unref lets it go. *)
Fixpoint held_after (held : bool) (tr : list event) : bool :=
  match tr with
  | [] => held
  | Call_pa_sink_render _ :: tr' => held_after true tr'
  | Call_pa_memblock_unref _ :: tr' => held_after false tr'
  | _ :: tr' => held_after held tr'
  end.

(** No render is issued while a cell is held. *)
Fixpoint one_cell (held : bool) (tr : list event) : bool :=
  match tr with
  | [] => true
  | Call_pa_sink_render _ :: tr' => negb held && one_cell true tr'
  | Call_pa_memblock_unref _ :: tr' => one_cell false tr'
  | _ :: tr' => one_cell held tr'
  end.

(** What a call takes from, or gives back to, the allocators. *)
Inductive resource :=
| R_modargs (h : handle)
| R_proplist (h : handle)
| R_userdata
| R_rtpoll (h : handle)
| R_sink_data
| R_sink (h : handle)
| R_context (h : handle)
| R_thread (h : handle).

Definition resource_eqb (a b : resource) : bool :=
  match a, b with
  | R_modargs x, R_modargs y
  | R_proplist x, R_proplist y
  | R_rtpoll x, R_rtpoll y
  | R_sink x, R_sink y
  | R_context x, R_context y
  | R_thread x, R_thread y => N.eqb x y
  | R_userdata, R_userdata
  | R_sink_data, R_sink_data => true
  | _, _ => false
  end.

Definition allocated_by (ev : event) : option resource :=
  match ev with
  | Call_pa_modargs_new (Some h) => Some (R_modargs h)
  | Call_pa_proplist_new h => Some (R_proplist h)
  | Call_pa_xnew0 => Some R_userdata
  | Call_pa_rtpoll_new h => Some (R_rtpoll h)
  | Call_pa_sink_new_data_init => Some R_sink_data
  | Call_pa_sink_new (Some h) => Some (R_sink h)
  | Call_pa_context_new_with_proplist (Some h) => Some (R_context h)
  | Call_pa_thread_new (Some h) => Some (R_thread h)
  | _ => None
  end.

Definition released_by (ev : event) : option resource :=
  match ev with
  | Call_pa_modargs_free h => Some (R_modargs h)
  | Call_pa_proplist_free h => Some (R_proplist h)
  | Call_pa_xfree => Some R_userdata
  | Call_pa_rtpoll_free h => Some (R_rtpoll h)
  | Call_pa_sink_new_data_done => Some R_sink_data
  | Call_pa_sink_unref h => Some (R_sink h)
  | Call_pa_context_unref h => Some (R_context h)
  | Call_pa_thread_free h => Some (R_thread h)
  | _ => None
  end.

Fixpoint remove_first (r : resource) (l : list resource) : list resource :=
  match l with
  | [] => []
  | x :: l' => if resource_eqb r x then l' else x :: remove_first r l'
  end.

(** The resources still allocated after the calls of [tr], starting from
    [live]. *)
Fixpoint outstanding (live : list resource) (tr : list event)
  : list resource :=
  match tr with
  | [] => live
  | ev :: tr' =>
      match allocated_by ev, released_by ev with
      | Some r, _ => outstanding (r :: live) tr'
      | None, Some r => outstanding (remove_first r live) tr'
      | None, None => outstanding live tr'
      end
  end.

(** A sink is registered by [pa_sink_new] and made visible by
    [pa_sink_put]. *)
Definition registers (ev : event) : bool :=
  match ev with
  | Call_pa_sink_new _ | Call_pa_sink_put _ | Call_pa_xnew0 => true
  | _ => false
  end.

(** ** A host and states to run the module on *)

Inductive example_sink_state :=
| SinkInit | SinkRunning | SinkSuspended | SinkUnlinked.

#[export] Instance example_host : HostSink :=
  {| pa_sink_state_t := example_sink_state;
     PA_SINK_IS_OPENED := fun s =>
       match s with SinkRunning => true | _ => false end;
     PA_SINK_IS_LINKED := fun s =>
       match s with SinkInit | SinkUnlinked => false | _ => true end |}.

(** A connected module: sink 1 running, stream 7, context 3, nothing
    rendered yet. *)
Definition example_userdata (st : pa_stream_state_t) : userdata :=
  mk_userdata 9%N (Some (mk_sink 1%N SinkRunning false)) (Some 2%N)
    (mk_mq [] []) (Some 4%N) pa_memchunk_reset false 0 0 0
    (Some (mk_context 3%N PA_CONTEXT_READY)) (Some (mk_stream 7%N st)) true.

Definition example_env : iter_env :=
  mk_env 100%N 4096%N (pa_memchunk.mk (Some 5%N) 0 4096) 0%Z 1%Z.

(** The transport has no room. *)
Definition stalled_env : iter_env :=
  mk_env 100%N 0%N (pa_memchunk.mk (Some 5%N) 0 4096) 0%Z 1%Z.

(** The poll fails. *)
Definition failing_env : iter_env :=
  mk_env 100%N 0%N (pa_memchunk.mk (Some 5%N) 0 4096) 0%Z (-1)%Z.

(** A latency query, a shutdown and a late connection message are queued
    for the render thread. *)
Definition example_queued : userdata :=
  set_thread_mq
    (mk_mq [PA_SINK_MESSAGE_GET_LATENCY; PA_MESSAGE_SHUTDOWN;
            SINK_MESSAGE_PASS_SOCKET] [])
    (example_userdata PA_STREAM_RUNNING).

(** The connection has just failed. *)
Definition example_context_failed : userdata :=
  set_context (Some (mk_context 3%N PA_CONTEXT_FAILED))
    (example_userdata PA_STREAM_RUNNING).

(** The stream slot is empty while the sink is linked. *)
Definition example_no_stream : userdata :=
  set_stream None (example_userdata PA_STREAM_RUNNING).

(** Arguments that name the sink and no remote server. *)
Definition example_init_env : init_env :=
  mk_init_env (Some (mk_modargs 11%N [("sink_name", "tunnel")]%string))
    0 12%N 0 (Some 13%N) 14%N (Some 15%N) 0 (Some 16%N).

(** Arguments that name a remote server; every call of [pa__init]
    succeeds. *)
Definition example_init_env_remote : init_env :=
  mk_init_env
    (Some (mk_modargs 11%N [("remote_server", "10.0.0.1")]%string))
    0 12%N 0 (Some 1%N) 14%N (Some 3%N) 0 (Some 4%N).

Definition example_module : pa_module := mk_module 9%N None.

(** The struct a successful activation leaves behind: the sink is put,
    the connection is under way, no stream exists yet. *)
Definition example_activated : userdata :=
  mk_userdata 9%N (Some (mk_sink 1%N SinkRunning false)) (Some 12%N)
    (mk_mq [] []) (Some 4%N) pa_memchunk_reset false 0 0 0
    (Some (mk_context 3%N PA_CONTEXT_UNCONNECTED)) None false.

(** ** The vocabulary of the properties *)

(** The transmit branch was entered: one of its calls is in the trace. *)
Definition transmit_branch_taken (tr : list event) : bool :=
  existsb is_transmit_call tr.

(** A cell is held: the chunk of [struct userdata] has a length above 0. *)
Definition cell_held {host : HostSink} (u : userdata) : bool :=
  (0 <? pa_memchunk.length (memchunk u))%N.

(** The same environment, with another result of [pa_stream_write]. *)
Definition with_write_ret (r : Z) (e : iter_env) : iter_env :=
  mk_env (env_now e) (env_writable e) (env_rendered e) r (env_poll_ret e).

(** The remote endpoint address [pa__init] reads from the arguments. *)
Definition remote_server_of (e : init_env) : option string :=
  match ie_modargs e with
  | Some ma => pa_modargs_get_value (ma_values ma) "remote_server" None
  | None => None
  end.

(** The calls of the render thread before the gate: the rewind, when one
    is requested, and the clock, when the sink is opened. *)
Definition prelude_calls {host : HostSink} (k : pa_sink) : list event :=
  (if thread_info_rewind_requested k
   then [Call_pa_sink_process_rewind 0] else []) ++
  (if PA_SINK_IS_OPENED (thread_info_state k)
   then [Call_pa_rtclock_now] else []).

(** A call that neither fills nor frees the cell. *)
Definition cell_neutral (ev : event) : bool :=
  match ev with
  | Call_pa_sink_render _ | Call_pa_memblock_unref _ => false
  | _ => true
  end.

(** ** Further vocabulary: calls, actions and activation *)

Definition is_rewind (ev : event) : bool :=
  match ev with Call_pa_sink_process_rewind _ => true | _ => false end.

Definition is_sink_put (ev : event) : bool :=
  match ev with Call_pa_sink_put _ => true | _ => false end.

Definition is_modargs_free (ev : event) : bool :=
  match ev with Call_pa_modargs_free _ => true | _ => false end.


Definition is_proplist_free (ev : event) : bool :=
  match ev with Call_pa_proplist_free _ => true | _ => false end.

Definition is_stream_new (ev : event) : bool :=
  match ev with Call_pa_stream_new_with_proplist _ _ => true | _ => false end.

(** A reference on a libpulse object is dropped. *)
Definition is_handle_unref (ev : event) : bool :=
  match ev with
  | Call_pa_context_unref _ | Call_pa_stream_unref _ => true
  | _ => false
  end.

Definition is_shutdown_send (ev : event) : bool :=
  match ev with
  | Call_pa_asyncmsgq_send PA_MESSAGE_SHUTDOWN => true
  | _ => false
  end.

(** The message that tells the render thread the connection is up. *)
Definition is_connection_message {host : HostSink} (a : action) : bool :=
  match a with
  | Message SINK_MESSAGE_PASS_SOCKET _ _ => true
  | _ => false
  end.

(** libpulse reports the connection ready. *)
Definition is_ready_event {host : HostSink} (a : action) : bool :=
  match a with
  | ContextEvent PA_CONTEXT_READY _ _ => true
  | _ => false
  end.

(** What the control thread owns of the struct, and what of the sink and
    of the stream no pass of the render thread changes. *)
Definition control_fields {host : HostSink} (u : userdata) :=
  (module u, rtpoll u, thread_mq u, thread u, auto_desc u, channels u,
   block_usec u, timestamp u, context u, connected u,
   option_map stream_id (stream u),
   option_map sink_id (sink u), option_map thread_info_state (sink u)).

(** [pa__init] gets as far as [pa_context_connect]: the arguments parse,
    name a remote server and hold valid properties, and the sink and the
    context are created. *)
Definition reaches_connect (e : init_env) : bool :=
  match ie_modargs e with
  | None => false
  | Some ma =>
      negb (ie_sample_spec_ret e <? 0)%Z &&
      negb (is_null
              (pa_modargs_get_value (ma_values ma) "remote_server" None)) &&
      negb (ie_proplist_ret e <? 0)%Z &&
      negb (is_null (ie_sink e)) &&
      negb (is_null (ie_context e))
  end.

(** Every step of [pa__init] succeeds. *)
Definition init_ok (e : init_env) : bool :=
  reaches_connect e &&
  negb (ie_connect_ret e <? 0)%Z &&
  negb (is_null (ie_thread e)).

(** Further states and environments to run the module on. *)

(** The poll asks for a clean stop. *)
Definition finishing_env : iter_env :=
  mk_env 100%N 0%N (pa_memchunk.mk (Some 5%N) 0 4096) 0%Z 0%Z.

(** The transport has room, and the mixing graph hands back nothing. *)
Definition empty_render_env : iter_env :=
  mk_env 100%N 4096%N (pa_memchunk.mk (Some 5%N) 0 0) 0%Z 1%Z.

(** A rewind is requested of the sink. *)
Definition example_rewind : userdata :=
  set_sink (Some (mk_sink 1%N SinkRunning true))
    (example_userdata PA_STREAM_RUNNING).

(** The connection has just become ready; no stream exists yet. *)
Definition example_context_ready : userdata :=
  set_context (Some (mk_context 3%N PA_CONTEXT_READY)) example_activated.



(** ** Symbolic execution *)

Ltac unfold_progs :=
  unfold thread_iter, transmit, render_and_write, transmit_gate,
    stream_state_callback, context_state_callback, sink_process_msg_cb,
    pa_sink_process_rewind, pa_rtclock_now, pa_sink_render, pa_rtpoll_run,
    pa_stream_get_state, pa_stream_is_corked, pa_stream_cork,
    pa_stream_writable_size, pa_stream_write, pa_memblock_acquire,
    pa_memblock_release, pa_memblock_unref,
    pa_stream_unref, pa_context_unref, pa_context_get_state,
    pa_stream_new_with_proplist, pa_stream_set_state_callback,
    pa_stream_connect_playback, pa_stream_get_latency, pa_asyncmsgq_post,
    deref_sink, pa_assert,
    bind, get, modify, emit, abort, skip, ret in *.

(** Split on the innermost test the goal is stuck on. *)
Ltac case_step :=
  match goal with
  | |- context [match ?x with _ => _ end] =>
      lazymatch x with
      | context [match _ with _ => _ end] => fail
      | _ => destruct x eqn:?
      end
  | |- context [if ?x then _ else _] =>
      lazymatch x with
      | context [if _ then _ else _] => fail
      | _ => destruct x eqn:?
      end
  end.

Ltac run_cases := repeat (case_step; simpl).

(** The struct, its sink and its stream opened up, the flags split. *)
Ltac open_state u :=
  let sk := fresh "sk" in
  let cx := fresh "cx" in
  let sm := fresh "sm" in
  let cn := fresh "cn" in
  destruct u as [? sk ? ? ? ? ? ? ? ? cx sm cn]; simpl in *.

Ltac returned_eq :=
  let H := fresh in
  intros ? ? ? H; inversion H; subst; reflexivity.

(** [pa__init] and [pa__done], unfolded down to the monad. *)
Ltac unfold_init :=
  unfold pa__init, init_setup, init_fail, pa__done, when_some, modify_u,
    bind, get, modify, emit, abort, skip, ret in *.

Ltac open_init e :=
  let ma := fresh "ma" in
  let kv := fresh "kv" in
  destruct e as [[[ma kv]|] ssr rp plr sk pl cx cr th]; simpl in *.

(** Equal handles compare equal; then the resource count computes. *)
Ltac balance := simpl; repeat (rewrite N.eqb_refl; simpl); reflexivity.

(** ** The monad and the traces *)

Lemma trace_of_bind {S A B} (m : prog S A) (k : A -> prog S B) (s : S) :
  trace_of (bind m k s) =
  trace_of (m s) ++
  match m s with
  | Returns a s1 _ => trace_of (k a s1)
  | Faults _ _ => []
  end.
Proof.
  unfold bind. destruct (m s) as [a s1 t1 | f t1]; simpl.
  - destruct (k a s1); reflexivity.
  - now rewrite app_nil_r.
Qed.

Lemma bind_returns {S A B} (m : prog S A) (k : A -> prog S B) s a s1 t1 :
  m s = Returns a s1 t1 ->
  bind m k s =
  match k a s1 with
  | Returns b s2 t2 => Returns b s2 (t1 ++ t2)
  | Faults f t2 => Faults f (t1 ++ t2)
  end.
Proof. intros H. unfold bind. now rewrite H. Qed.

Lemma count_calls_app p t1 t2 :
  count_calls p (t1 ++ t2) = count_calls p t1 + count_calls p t2.
Proof. unfold count_calls. now rewrite filter_app, length_app. Qed.

Lemma count_calls_none p q tr :
  forallb q tr = true -> (forall ev, q ev = true -> p ev = false) ->
  count_calls p tr = 0.
Proof.
  intros H Hq. unfold count_calls.
  induction tr as [|ev tr IH]; simpl in *; [reflexivity|].
  apply andb_prop in H as [H1 H2]. rewrite (Hq ev H1). auto.
Qed.

Lemma one_cell_app h t1 t2 :
  one_cell h (t1 ++ t2) = one_cell h t1 && one_cell (held_after h t1) t2.
Proof.
  revert h. induction t1 as [|ev t1 IH]; intros h; simpl; [reflexivity|].
  destruct ev; simpl; rewrite ?IH; try reflexivity.
  now rewrite andb_assoc.
Qed.

Lemma held_after_app h t1 t2 :
  held_after h (t1 ++ t2) = held_after (held_after h t1) t2.
Proof.
  revert h. induction t1 as [|ev t1 IH]; intros h; simpl; [reflexivity|].
  destruct ev; simpl; now rewrite ?IH.
Qed.

(** A trace without render and unref neither fills nor frees the cell. *)
Lemma cell_neutral_trace h tr :
  forallb cell_neutral tr = true ->
  one_cell h tr = true /\ held_after h tr = h.
Proof.
  induction tr as [|ev tr IH]; simpl; intros H; [auto|].
  apply andb_prop in H as [H1 H2]. destruct ev; simpl in *; auto; discriminate.
Qed.

Lemma msg_code_eqb_eq a b : msg_code_eqb a b = true <-> a = b.
Proof.
  destruct a, b; simpl; split; intros H; try discriminate; try reflexivity.
  - apply Z.eqb_eq in H. now subst.
  - inversion H. apply Z.eqb_refl.
Qed.

Section Facts.
Context {host : HostSink}.

(** ** One pass of the loop *)

Lemma thread_iter_value e u r u' tr :
  thread_iter e u = Returns r u' tr -> r = env_poll_ret e.
Proof.
  unfold_progs. open_state u.
  destruct sk as [[sid sst srw]|]; simpl; [|discriminate].
  destruct srw, (PA_SINK_IS_OPENED sst) eqn:Ho, cn,
    sm as [[smid [| | | |]]|]; simpl; run_cases;
    intros H; inversion H; reflexivity.
Qed.

(** What a pass leaves alone: everything but the rewind request, the
    stream state and the cell. *)
Lemma thread_iter_frame e u r u' tr :
  thread_iter e u = Returns r u' tr ->
  module u' = module u /\ rtpoll u' = rtpoll u /\
  thread_mq u' = thread_mq u /\ thread u' = thread u /\
  context u' = context u /\ connected u' = connected u /\
  option_map stream_id (stream u') = option_map stream_id (stream u).
Proof.
  unfold_progs. open_state u.
  destruct sk as [[sid sst srw]|]; simpl; [|discriminate].
  destruct srw, (PA_SINK_IS_OPENED sst) eqn:Ho, cn,
    sm as [[smid [| | | |]]|]; simpl; run_cases;
    intros H; inversion H; subst; simpl; repeat split.
Qed.

Lemma iter_render_count e u :
  count_calls is_render (trace_of (thread_iter e u))
  <= if (0 <? env_writable e)%N then 1 else 0.
Proof.
  unfold_progs. open_state u.
  destruct sk as [[sid sst srw]|]; simpl;
    [|unfold count_calls; simpl; lia].
  destruct srw, (PA_SINK_IS_OPENED sst) eqn:Ho, cn,
    sm as [[smid [| | | |]]|]; simpl; run_cases;
    unfold count_calls; simpl; lia.
Qed.

Lemma iter_backpressure e u :
  env_writable e = 0%N ->
  existsb (fun ev => is_render ev || is_write ev)
    (trace_of (thread_iter e u)) = false.
Proof.
  intros Hw. unfold_progs. rewrite Hw. open_state u.
  destruct sk as [[sid sst srw]|]; simpl; [|reflexivity].
  destruct srw, (PA_SINK_IS_OPENED sst) eqn:Ho, cn,
    sm as [[smid [| | | |]]|]; simpl; run_cases; reflexivity.
Qed.

Lemma iter_render_needs_empty e u :
  existsb is_render (trace_of (thread_iter e u)) = true ->
  (pa_memchunk.length (memchunk u) <= 0)%N.
Proof.
  unfold_progs.
  destruct u as [md sk rp mq th [mb ix ln] ad ch bu ts cx sm cn]; simpl.
  destruct ln as [|p]; [lia|].
  destruct sk as [[sid sst srw]|]; simpl; [|discriminate].
  destruct srw, (PA_SINK_IS_OPENED sst) eqn:Ho, cn,
    sm as [[smid [| | | |]]|]; simpl; run_cases; discriminate.
Qed.

Lemma iter_one_cell e u :
  one_cell (cell_held u) (trace_of (thread_iter e u)) = true /\
  forall r u' tr, thread_iter e u = Returns r u' tr ->
    held_after (cell_held u) tr = cell_held u'.
Proof.
  unfold_progs. unfold cell_held.
  destruct e as [nw wr [rb ri rl] wret pret].
  destruct u as [md sk rp mq th [mb ix ln] ad ch bu ts cx sm cn]; simpl.
  destruct sk as [[sid sst srw]|]; simpl;
    [|split; [reflexivity|discriminate]].
  destruct ln as [|p], rl as [|q], srw, (PA_SINK_IS_OPENED sst) eqn:Ho, cn,
    sm as [[smid [| | | |]]|]; simpl; run_cases;
    (split; [reflexivity | returned_eq]).
Qed.

Lemma iter_no_connect e u :
  forallb (fun ev => negb (is_connect ev)) (trace_of (thread_iter e u)) = true.
Proof.
  unfold_progs. open_state u.
  destruct sk as [[sid sst srw]|]; simpl; [|reflexivity].
  destruct srw, (PA_SINK_IS_OPENED sst) eqn:Ho, cn,
    sm as [[smid [| | | |]]|]; simpl; run_cases; reflexivity.
Qed.

(** ** The module at work *)

Lemma run_cons_trace a acts u :
  trace_of (run (a :: acts) u) =
  trace_of (perform a u) ++
  match perform a u with
  | Returns _ u1 _ => trace_of (run acts u1)
  | Faults _ _ => []
  end.
Proof. simpl. apply trace_of_bind. Qed.

Lemma perform_iterate e u :
  perform (Iterate e) u =
  match thread_iter e u with
  | Returns _ u1 tr => Returns tt u1 tr
  | Faults f tr => Faults f tr
  end.
Proof.
  unfold perform, bind, ret. destruct (thread_iter e u); [|reflexivity].
  now rewrite app_nil_r.
Qed.

(** The callbacks, the message handler and the host never render, write,
    free a block or connect, and leave the cell as it is. *)
Lemma other_actions_quiet a u :
  (forall e, a <> Iterate e) ->
  forallb (fun ev => negb (is_render ev) && negb (is_write ev) &&
                     cell_neutral ev && negb (is_connect ev))
          (trace_of (perform a u)) = true /\
  forall x u' tr, perform a u = Returns x u' tr -> memchunk u' = memchunk u.
Proof.
  intros Hna. destruct a as [e | st | st pl fr | code r hr | st rw];
    [now elim (Hna e) | | | |]; unfold perform; unfold_progs; open_state u.
  - destruct sm as [[smid st0]|]; simpl.
    + rewrite N.eqb_refl; simpl.
      destruct st; simpl; (split; [reflexivity | returned_eq]).
    + split; [reflexivity | returned_eq].
  - destruct cx as [[cid st0]|]; simpl.
    + rewrite N.eqb_refl; simpl.
      destruct st, sm as [[smid st1]|], sk as [[sid sst srw]|], fr; simpl;
        (split; [reflexivity | returned_eq]).
    + split; [reflexivity | returned_eq].
  - destruct code, sk as [[sid sst srw]|]; simpl; run_cases;
      (split; [reflexivity | returned_eq]).
  - destruct sk as [[sid sst srw]|]; simpl;
      (split; [reflexivity | returned_eq]).
Qed.

Lemma forallb_weaken (p q : event -> bool) tr :
  (forall ev, p ev = true -> q ev = true) ->
  forallb p tr = true -> forallb q tr = true.
Proof.
  intros Hpq. rewrite !forallb_forall. auto.
Qed.

Lemma perform_render_count a u :
  count_calls is_render (trace_of (perform a u)) <= writable_passes [a].
Proof.
  destruct a as [e | st | st pl fr | code r hr | st rw];
    try (rewrite (@count_calls_none is_render
                    (fun ev => negb (is_render ev) && negb (is_write ev) &&
                               cell_neutral ev && negb (is_connect ev)));
         [ lia
         | apply other_actions_quiet; discriminate
         | intros ev; destruct ev; simpl; congruence ]).
  rewrite perform_iterate. simpl. rewrite Nat.add_0_r.
  generalize (iter_render_count e u).
  destruct (thread_iter e u); simpl; auto.
Qed.

Lemma writable_passes_cons a acts :
  writable_passes (a :: acts) = writable_passes [a] + writable_passes acts.
Proof. destruct a; simpl; lia. Qed.

Lemma run_render_count acts u :
  count_calls is_render (trace_of (run acts u)) <= writable_passes acts.
Proof.
  revert u. induction acts as [|a acts IH]; intros u.
  - simpl. unfold count_calls. simpl. lia.
  - rewrite run_cons_trace, count_calls_app, writable_passes_cons.
    pose proof (perform_render_count a u) as Ha.
    destruct (perform a u) as [x u1 tr | f tr]; cbv iota beta.
    + apply Nat.add_le_mono; [exact Ha | apply IH].
    + unfold count_calls at 2. simpl. rewrite Nat.add_0_r.
      apply (Nat.le_trans _ _ _ Ha). apply Nat.le_add_r.
Qed.

Lemma perform_one_cell a u :
  one_cell (cell_held u) (trace_of (perform a u)) = true /\
  forall x u' tr, perform a u = Returns x u' tr ->
    held_after (cell_held u) tr = cell_held u'.
Proof.
  destruct a as [e | st | st pl fr | code r hr | st rw].
  1:{ rewrite perform_iterate. destruct (iter_one_cell e u) as [H1 H2].
      destruct (thread_iter e u) as [r u1 tr | f tr]; simpl in *.
      - split; [assumption|]. intros x u' tr' H. inversion H; subst.
        eapply H2; reflexivity.
      - split; [assumption | discriminate]. }
  all: match goal with |- context [perform ?a ?v] =>
         destruct (@other_actions_quiet a v) as [Hq Hm]; [discriminate|];
         apply (@forallb_weaken _ cell_neutral) in Hq;
           [| intros ev Hev; apply andb_prop in Hev as [Hev _];
              apply andb_prop in Hev as [_ Hev]; exact Hev];
         destruct (cell_neutral_trace (cell_held u) _ Hq) as [H1 H2];
         split; [exact H1|];
         intros x u' tr H; rewrite H in H2; simpl in H2; rewrite H2;
         unfold cell_held; now rewrite (Hm _ _ _ H)
       end.
Qed.

Lemma run_one_cell acts u :
  one_cell (cell_held u) (trace_of (run acts u)) = true.
Proof.
  revert u. induction acts as [|a acts IH]; intros u; [reflexivity|].
  rewrite run_cons_trace, one_cell_app.
  destruct (perform_one_cell a u) as [H1 H2]. rewrite H1. simpl.
  destruct (perform a u) as [x u1 tr | f tr]; [|reflexivity].
  simpl. rewrite (H2 _ _ _ eq_refl). apply IH.
Qed.

(** ** The gate of the transmit branch *)

Lemma gate_open_iff e u :
  transmit_branch_taken (trace_of (thread_iter e u)) = true <->
  connected u = true /\
  (exists s, stream u = Some s /\
     In (stream_state s)
        [PA_STREAM_CREATED; PA_STREAM_CORKED; PA_STREAM_RUNNING]) /\
  (exists k, sink u = Some k /\
     PA_SINK_IS_OPENED (thread_info_state k) = true).
Proof.
  unfold transmit_branch_taken. unfold_progs. open_state u.
  destruct sk as [[sid sst srw]|]; simpl.
  2:{ split; [discriminate|]. intros (_ & _ & (k & Hk & _)). discriminate. }
  destruct srw, (PA_SINK_IS_OPENED sst) eqn:Ho, cn,
    sm as [[smid [| | | |]]|]; simpl; run_cases.
  all: split;
    [ first [ discriminate
            | intros _; split; [reflexivity|]; split;
              [ eexists; split; [reflexivity | simpl; tauto]
              | eexists; split; [reflexivity | simpl; assumption] ] ]
    | first [ reflexivity
            | intros (Hc & (s & Hs & Hin) & (k & Hk & Hop)); simpl in *;
              try discriminate;
              try (inversion Hs; subst s; simpl in Hin);
              try (inversion Hk; subst k; simpl in Hop);
              try congruence; intuition discriminate ] ].
Qed.

Lemma gate_closed_skips e u k :
  sink u = Some k ->
  (connected u = false \/
   (exists s, stream u = Some s /\
      PA_STREAM_IS_GOOD (stream_state s) = false) \/
   (exists s, stream u = Some s /\
      PA_SINK_IS_OPENED (thread_info_state k) = false)) ->
  thread_iter e u =
  Returns (env_poll_ret e)
    (set_sink (Some (mk_sink (sink_id k) (thread_info_state k) false)) u)
    (prelude_calls k ++ [Call_pa_rtpoll_run]).
Proof.
  intros Hk H. unfold prelude_calls. unfold_progs. open_state u.
  subst sk. destruct k as [sid sst srw]; simpl in *.
  destruct H as [-> | [(s & -> & Hg) | (s & -> & Ho)]];
    try destruct s as [smid st]; simpl in *;
    destruct srw; simpl;
    destruct (PA_SINK_IS_OPENED sst) eqn:Ho'; simpl;
    try destruct cn; simpl; rewrite ?Hg; simpl; rewrite ?Ho'; simpl;
    try discriminate;
    try (destruct (PA_STREAM_IS_GOOD st); simpl; rewrite ?Ho'; simpl);
    reflexivity.
Qed.

(** C1.  In every pass of the render worker's loop the transmit branch
    (uncork, writable-size query, render, write) is entered if and only if
    [connected] is true, the stream is in one of the states Created, Corked,
    Running, and the sink is opened.  For every other combination of the
    flag, a stream state and a sink state the branch is skipped: the pass
    goes on to the poll, having made only the calls that precede the
    gate.  Before the connection is established ([connected] false) this
    holds whatever the stream slot contains. *)
Theorem state_gate e u :
  (transmit_branch_taken (trace_of (thread_iter e u)) = true <->
   connected u = true /\
   (exists s, stream u = Some s /\
      In (stream_state s)
         [PA_STREAM_CREATED; PA_STREAM_CORKED; PA_STREAM_RUNNING]) /\
   (exists k, sink u = Some k /\
      PA_SINK_IS_OPENED (thread_info_state k) = true)) /\
  (forall k s,
     sink u = Some k -> stream u = Some s ->
     connected u && PA_STREAM_IS_GOOD (stream_state s) &&
       PA_SINK_IS_OPENED (thread_info_state k) = false ->
     thread_iter e u =
     Returns (env_poll_ret e)
       (set_sink (Some (mk_sink (sink_id k) (thread_info_state k) false)) u)
       (prelude_calls k ++ [Call_pa_rtpoll_run])) /\
  (forall k,
     sink u = Some k -> connected u = false ->
     thread_iter e u =
     Returns (env_poll_ret e)
       (set_sink (Some (mk_sink (sink_id k) (thread_info_state k) false)) u)
       (prelude_calls k ++ [Call_pa_rtpoll_run])).
Proof.
  split; [apply gate_open_iff|]. split.
  - intros k s Hk Hs Hg. apply gate_closed_skips; [assumption|].
    apply andb_false_iff in Hg as [Hg | Hg];
      [apply andb_false_iff in Hg as [Hg | Hg]|]; eauto.
  - intros k Hk Hc. apply gate_closed_skips; auto.
Qed.

(** ** Backpressure and the single cell *)

(** C2.  A pass during which the transport reports a writable size of 0
    makes no render call and no stream write; and over any sequence of
    passes, callbacks and messages, the render calls are at most as many as
    the passes during which the writable size was above 0. *)
Theorem backpressure :
  (forall e u,
     env_writable e = 0%N ->
     existsb (fun ev => is_render ev || is_write ev)
       (trace_of (thread_iter e u)) = false) /\
  (forall acts u,
     count_calls is_render (trace_of (run acts u)) <= writable_passes acts).
Proof.
  split.
  - apply iter_backpressure.
  - apply run_render_count.
Qed.

(** C3.  A pass renders a new cell only when none is held (the length of
    the held chunk is 0 or less), and at most once; over any sequence of
    passes, callbacks and messages no render is issued while a cell is
    held, so at most one cell is outstanding at any time. *)
Theorem at_most_one_cell :
  (forall e u,
     existsb is_render (trace_of (thread_iter e u)) = true ->
     (pa_memchunk.length (memchunk u) <= 0)%N) /\
  (forall e u, count_calls is_render (trace_of (thread_iter e u)) <= 1) /\
  (forall acts u, one_cell (cell_held u) (trace_of (run acts u)) = true).
Proof.
  split; [apply iter_render_needs_empty|]. split.
  - intros e u. pose proof (iter_render_count e u) as H.
    destruct (0 <? env_writable e)%N; lia.
  - apply run_one_cell.
Qed.

(** ** Write, then release *)

(** A pass that reaches the write had the gate open, a stream that is not
    corked, room in the transport, and a cell with a block to send. *)
Lemma iter_write_config e u :
  existsb is_write (trace_of (thread_iter e u)) = true ->
  exists k s b i l,
    sink u = Some k /\ connected u = true /\ stream u = Some s /\
    (stream_state s = PA_STREAM_CREATED \/ stream_state s = PA_STREAM_RUNNING) /\
    PA_SINK_IS_OPENED (thread_info_state k) = true /\
    (0 <? env_writable e)%N = true /\
    (if cell_held u then memchunk u else env_rendered e) =
      pa_memchunk.mk (Some b) i l /\
    (0 <? l)%N = true.
Proof.
  unfold cell_held. unfold_progs.
  destruct e as [nw wr [rb ri rl] wret pret].
  destruct u as [md sk rp mq th [mb ix ln] ad ch bu ts cx sm cn]; simpl.
  destruct sk as [[sid sst srw]|]; simpl; [|discriminate].
  destruct ln as [|p], rl as [|q], srw, (PA_SINK_IS_OPENED sst) eqn:Ho, cn,
    sm as [[smid [| | | |]]|]; simpl; run_cases; try discriminate; intros _;
    do 5 eexists; repeat split; try reflexivity; try assumption;
    simpl; auto.
Qed.

(** C4.  Every pass that writes to the stream releases the block of the
    cell it wrote, drops its reference and resets the cell to empty before
    it returns to the poll, whatever the write returned: the state the
    pass ends in does not depend on the result of the write, and a result
    other than 0 adds one warning to the calls and nothing else.  (The
    pass itself is the case where [r] is the result it got.) *)
Theorem write_then_release e u :
  existsb is_write (trace_of (thread_iter e u)) = true ->
  exists k s b i l,
    sink u = Some k /\ stream u = Some s /\
    pa_memchunk.mk (Some b) i l =
      (if cell_held u then memchunk u else env_rendered e) /\
    with_write_ret (env_write_ret e) e = e /\
    forall r,
      thread_iter (with_write_ret r e) u =
      Returns (env_poll_ret e)
        (set_memchunk pa_memchunk_reset
           (set_sink (Some (mk_sink (sink_id k) (thread_info_state k) false)) u))
        (prelude_calls k ++
         [Call_pa_stream_writable_size (stream_id s)] ++
         (if cell_held u then [] else [Call_pa_sink_render (env_writable e)]) ++
         [Call_pa_memblock_acquire b;
          Call_pa_stream_write (stream_id s) b i l 0;
          Call_pa_memblock_release b;
          Call_pa_memblock_unref b] ++
         (if (r =? 0)%Z then [] else [Call_pa_log_warn]) ++
         [Call_pa_rtpoll_run]).
Proof.
  intros H.
  destruct (iter_write_config e u H)
    as (k & s & b & i & l & Hk & Hc & Hs & Hst & Ho & Hw & Hcell & Hl).
  exists k, s, b, i, l. repeat split; auto; [now destruct e|].
  intros r. unfold with_write_ret, prelude_calls, cell_held in *. unfold_progs.
  destruct e as [nw wr [rb ri rl] wret pret].
  destruct u as [md sk rp mq th [mb ix ln] ad ch bu ts cx sm cn]; simpl in *.
  subst sk cn sm. destruct k as [sid sst srw]; simpl in *.
  destruct s as [smid st]; simpl in *.
  destruct ln as [|p]; simpl in *; inversion Hcell; subst;
    destruct srw; simpl; rewrite ?Ho; simpl;
    destruct Hst as [-> | ->]; simpl; rewrite ?Ho; simpl; rewrite ?Hw; simpl;
    rewrite ?Hl; simpl;
    destruct (r =? 0)%Z; simpl; reflexivity.
Qed.

(** ** The failure path *)

Lemma set_thread_mq_twice a b (u : userdata) :
  set_thread_mq a (set_thread_mq b u) = set_thread_mq a u.
Proof. reflexivity. Qed.

(** The wait lets every message before the first [code] go, one by one,
    and stops there. *)
Lemma wait_for_loop_found code pre post u :
  ~ In code pre ->
  wait_for_loop code (pre ++ code :: post) u =
  Returns true (set_thread_mq (mk_mq post (outq (thread_mq u))) u)
    (map Call_pa_asyncmsgq_discard pre).
Proof.
  intros Hpre. induction pre as [|c pre IH]; simpl.
  - replace (msg_code_eqb code code) with true
      by (symmetry; now apply msg_code_eqb_eq).
    reflexivity.
  - destruct (msg_code_eqb c code) eqn:Hc.
    + apply msg_code_eqb_eq in Hc. subst. elim Hpre. now left.
    + unfold bind at 1. unfold emit at 1. rewrite IH; [reflexivity|].
      intros Hin. apply Hpre. now right.
Qed.

Lemma wait_for_loop_blocked code q u :
  ~ In code q ->
  wait_for_loop code q u =
  Returns false (set_thread_mq (mk_mq [] (outq (thread_mq u))) u)
    (map Call_pa_asyncmsgq_discard q).
Proof.
  intros Hq. induction q as [|c q IH]; simpl; [reflexivity|].
  destruct (msg_code_eqb c code) eqn:Hc.
  - apply msg_code_eqb_eq in Hc. subst. elim Hq. now left.
  - unfold bind at 1. unfold emit at 1. rewrite IH; [reflexivity|].
    intros Hin. apply Hq. now right.
Qed.

Lemma first_occurrence code (q : list msg_code) :
  In code q -> exists pre post, q = pre ++ code :: post /\ ~ In code pre.
Proof.
  induction q as [|c q IH]; simpl; [tauto|].
  intros H. destruct (msg_code_eqb c code) eqn:Hc.
  - apply msg_code_eqb_eq in Hc. subst. exists [], q. split; auto.
  - destruct H as [-> | H].
    + assert (msg_code_eqb code code = true) by now apply msg_code_eqb_eq.
      congruence.
    + destruct (IH H) as (pre & post & -> & Hn).
      exists (c :: pre), post. split; [reflexivity|].
      intros [-> | Hin]; [|tauto].
      assert (msg_code_eqb code code = true) by now apply msg_code_eqb_eq.
      congruence.
Qed.

Lemma thread_fail_exits u pre post :
  inq (thread_mq u) = pre ++ PA_MESSAGE_SHUTDOWN :: post ->
  ~ In PA_MESSAGE_SHUTDOWN pre ->
  thread_fail u =
  Returns ThreadExited
    (set_thread_mq
       (mk_mq post (outq (thread_mq u) ++ [PA_CORE_MESSAGE_UNLOAD_MODULE])) u)
    ([Call_pa_asyncmsgq_post Outq PA_CORE_MESSAGE_UNLOAD_MODULE;
      Call_pa_asyncmsgq_wait_for PA_MESSAGE_SHUTDOWN] ++
     map Call_pa_asyncmsgq_discard pre ++ [Call_pa_log_debug]).
Proof.
  intros Hq Hpre. unfold thread_fail, pa_asyncmsgq_post, pa_asyncmsgq_wait_for.
  unfold bind, emit, modify, get, ret. simpl. rewrite Hq.
  rewrite wait_for_loop_found by assumption. simpl.
  reflexivity.
Qed.

Lemma thread_fail_waits u :
  ~ In PA_MESSAGE_SHUTDOWN (inq (thread_mq u)) ->
  thread_fail u =
  Returns ThreadWaiting
    (set_thread_mq
       (mk_mq [] (outq (thread_mq u) ++ [PA_CORE_MESSAGE_UNLOAD_MODULE])) u)
    ([Call_pa_asyncmsgq_post Outq PA_CORE_MESSAGE_UNLOAD_MODULE;
      Call_pa_asyncmsgq_wait_for PA_MESSAGE_SHUTDOWN] ++
     map Call_pa_asyncmsgq_discard (inq (thread_mq u))).
Proof.
  intros Hq. unfold thread_fail, pa_asyncmsgq_post, pa_asyncmsgq_wait_for.
  unfold bind, emit, modify, get, ret. simpl.
  rewrite wait_for_loop_blocked by assumption. simpl.
  now rewrite ?app_nil_r.
Qed.

Lemma thread_loop_fail e envs u r u1 tr :
  thread_iter e u = Returns r u1 tr -> (r < 0)%Z ->
  thread_loop (e :: envs) u = Returns GotoFail u1 tr.
Proof.
  intros H Hr. cbn [thread_loop]. rewrite (bind_returns _ _ _ H).
  apply Z.ltb_lt in Hr. rewrite Hr. unfold ret. now rewrite app_nil_r.
Qed.

Lemma thread_loop_continue e envs u r u1 tr :
  thread_iter e u = Returns r u1 tr -> (0 < r)%Z ->
  thread_loop (e :: envs) u =
  match thread_loop envs u1 with
  | Returns x u2 t2 => Returns x u2 (tr ++ t2)
  | Faults f t2 => Faults f (tr ++ t2)
  end.
Proof.
  intros H Hr. cbn [thread_loop]. rewrite (bind_returns _ _ _ H).
  destruct (r <? 0)%Z eqn:H1; [apply Z.ltb_lt in H1; lia|].
  destruct (r =? 0)%Z eqn:H2; [apply Z.eqb_eq in H2; lia|].
  reflexivity.
Qed.

Lemma thread_func_after_loop t0 envs u x u1 tr :
  thread_loop envs (set_timestamp t0 u) = Returns x u1 tr ->
  thread_func t0 envs u =
  match
    match x with
    | OutOfSamples => ret ThreadLooping
    | GotoFail => thread_fail
    | GotoFinish => emit Call_pa_log_debug ;; ret ThreadExited
    end u1
  with
  | Returns st u2 t2 =>
      Returns st u2
        ([Call_pa_log_debug; Call_pa_thread_mq_install; Call_pa_rtclock_now]
         ++ tr ++ t2)
  | Faults f t2 =>
      Faults f
        ([Call_pa_log_debug; Call_pa_thread_mq_install; Call_pa_rtclock_now]
         ++ tr ++ t2)
  end.
Proof.
  intros H. unfold thread_func.
  unfold bind at 1 2 3 4, emit at 1 2 3, modify. simpl.
  rewrite (bind_returns _ _ _ H).
  destruct x; simpl; try reflexivity.
  destruct (thread_fail u1); reflexivity.
Qed.


(** The loop leaves through [goto fail] at the first pass whose poll is
    negative, whatever samples would follow. *)
Lemma thread_loop_reaches_fail done e rest u u0 tr0 u1 tr1 :
  thread_loop done u = Returns OutOfSamples u0 tr0 ->
  thread_iter e u0 = Returns (env_poll_ret e) u1 tr1 ->
  (env_poll_ret e < 0)%Z ->
  thread_loop (done ++ e :: rest) u = Returns GotoFail u1 (tr0 ++ tr1).
Proof.
  revert u tr0. induction done as [|d done IH]; intros u tr0 Hd He Hr.
  - inversion Hd; subst. simpl app. eapply thread_loop_fail; eassumption.
  - cbn [thread_loop] in Hd. cbn [app thread_loop].
    unfold bind in Hd |- *.
    destruct (thread_iter d u) as [r ua ta | f ta]; [|discriminate].
    destruct (r <? 0)%Z; [discriminate|].
    destruct (r =? 0)%Z; [discriminate|].
    destruct (thread_loop done ua) as [x ub tb | f tb] eqn:Hl; [|discriminate].
    inversion Hd; subst.
    rewrite (IH ua tb Hl He Hr). now rewrite app_assoc.
Qed.

(** C5.  When the poll of a pass returns a negative value, the render
    worker posts PA_CORE_MESSAGE_UNLOAD_MODULE on the outbound queue and
    waits on its inbound queue for PA_MESSAGE_SHUTDOWN: every message that
    precedes it is discarded without effect on the module, the thread
    exits once the shutdown message is met (the first one, when the queue
    holds any), and has not exited as long as the queue holds none. *)
Theorem poller_failure_path t0 done e rest u u0 tr0 u1 tr1 :
  thread_loop done (set_timestamp t0 u) = Returns OutOfSamples u0 tr0 ->
  thread_iter e u0 = Returns (env_poll_ret e) u1 tr1 ->
  (env_poll_ret e < 0)%Z ->
  (forall pre post,
     inq (thread_mq u1) = pre ++ PA_MESSAGE_SHUTDOWN :: post ->
     ~ In PA_MESSAGE_SHUTDOWN pre ->
     thread_func t0 (done ++ e :: rest) u =
     Returns ThreadExited
       (set_thread_mq
          (mk_mq post
             (outq (thread_mq u1) ++ [PA_CORE_MESSAGE_UNLOAD_MODULE])) u1)
       ([Call_pa_log_debug; Call_pa_thread_mq_install; Call_pa_rtclock_now]
        ++ (tr0 ++ tr1) ++
        [Call_pa_asyncmsgq_post Outq PA_CORE_MESSAGE_UNLOAD_MODULE;
         Call_pa_asyncmsgq_wait_for PA_MESSAGE_SHUTDOWN] ++
        map Call_pa_asyncmsgq_discard pre ++ [Call_pa_log_debug])) /\
  (~ In PA_MESSAGE_SHUTDOWN (inq (thread_mq u1)) ->
     thread_func t0 (done ++ e :: rest) u =
     Returns ThreadWaiting
       (set_thread_mq
          (mk_mq []
             (outq (thread_mq u1) ++ [PA_CORE_MESSAGE_UNLOAD_MODULE])) u1)
       ([Call_pa_log_debug; Call_pa_thread_mq_install; Call_pa_rtclock_now]
        ++ (tr0 ++ tr1) ++
        [Call_pa_asyncmsgq_post Outq PA_CORE_MESSAGE_UNLOAD_MODULE;
         Call_pa_asyncmsgq_wait_for PA_MESSAGE_SHUTDOWN] ++
        map Call_pa_asyncmsgq_discard (inq (thread_mq u1)))) /\
  (In PA_MESSAGE_SHUTDOWN (inq (thread_mq u1)) ->
   exists pre post,
     inq (thread_mq u1) = pre ++ PA_MESSAGE_SHUTDOWN :: post /\
     ~ In PA_MESSAGE_SHUTDOWN pre).
Proof.
  intros Hd He Hr.
  pose proof (@thread_loop_reaches_fail done e rest _ _ _ _ _ Hd He Hr) as Hl.
  rewrite (@thread_func_after_loop _ _ _ _ _ _ Hl).
  split; [|split].
  - intros pre post Hq Hpre. now rewrite (@thread_fail_exits _ _ _ Hq Hpre).
  - intros Hq. now rewrite (@thread_fail_waits _ Hq).
  - apply first_occurrence.
Qed.

(** ** The stream callback *)

Lemma stream_failure_clears u s :
  stream u = Some s ->
  (stream_state s = PA_STREAM_FAILED \/ stream_state s = PA_STREAM_TERMINATED) ->
  stream_state_callback (Some (stream_id s)) u =
  Returns tt (set_stream None u)
    [Call_pa_log_debug; Call_pa_stream_unref (stream_id s)].
Proof.
  intros Hs Hst. unfold_progs. rewrite Hs. simpl. rewrite N.eqb_refl. simpl.
  destruct Hst as [-> | ->]; reflexivity.
Qed.

Lemma iter_on_absent_stream e u k :
  sink u = Some k -> connected u = true -> stream u = None ->
  thread_iter e u = Faults NullHandle (prelude_calls k).
Proof.
  intros Hk Hc Hs. unfold prelude_calls. unfold_progs. open_state u.
  subst. destruct k as [sid sst srw]; simpl.
  destruct srw; simpl; destruct (PA_SINK_IS_OPENED sst); reflexivity.
Qed.

(** C6.  Once the stream has entered Failed or Terminated the callback
    releases the handle and clears the slot to NULL, but the next pass of
    the render worker does not observe the absent stream: with [connected]
    still true the gate asks the absent handle for its state, and the pass
    ends there in a fault, before the poll. *)
Theorem absent_stream_not_observed e u s k :
  stream u = Some s ->
  (stream_state s = PA_STREAM_FAILED \/ stream_state s = PA_STREAM_TERMINATED) ->
  connected u = true ->
  sink u = Some k ->
  stream_state_callback (Some (stream_id s)) u =
    Returns tt (set_stream None u)
      [Call_pa_log_debug; Call_pa_stream_unref (stream_id s)] /\
  thread_iter e (set_stream None u) = Faults NullHandle (prelude_calls k).
Proof.
  intros Hs Hst Hc Hk. split; [now apply stream_failure_clears|].
  now apply iter_on_absent_stream.
Qed.

(** C10.  On Failed or Terminated the stream callback changes the stream
    field alone - the handle is released and the field set to NULL; every
    other field of the struct is as before, [connected] included, so that
    with [connected] true the gate of the next pass is decided by asking an
    absent stream handle for its state. *)
Theorem stream_failure_frame u s :
  stream u = Some s ->
  (stream_state s = PA_STREAM_FAILED \/ stream_state s = PA_STREAM_TERMINATED) ->
  exists u',
    stream_state_callback (Some (stream_id s)) u =
      Returns tt u' [Call_pa_log_debug; Call_pa_stream_unref (stream_id s)] /\
    stream u' = None /\
    module u' = module u /\ sink u' = sink u /\ rtpoll u' = rtpoll u /\
    thread_mq u' = thread_mq u /\ thread u' = thread u /\
    memchunk u' = memchunk u /\ auto_desc u' = auto_desc u /\
    channels u' = channels u /\ block_usec u' = block_usec u /\
    timestamp u' = timestamp u /\ context u' = context u /\
    connected u' = connected u /\
    (connected u = true ->
     transmit_gate u' =
     (st <- pa_stream_get_state None ;;
      if PA_STREAM_IS_GOOD st
      then k <- deref_sink ;; ret (PA_SINK_IS_OPENED (thread_info_state k))
      else ret false) u').
Proof.
  intros Hs Hst. exists (set_stream None u).
  split; [now apply stream_failure_clears|].
  repeat split. intros Hc.
  unfold transmit_gate. unfold bind at 1. unfold get. simpl.
  rewrite Hc. reflexivity.
Qed.

(** ** The context callback *)

Lemma context_failure_clears u c pl fr :
  context u = Some c ->
  (context_state c = PA_CONTEXT_FAILED \/
   context_state c = PA_CONTEXT_TERMINATED) ->
  context_state_callback (Some (context_id c)) pl fr u =
  Returns tt (set_connected false (set_context None u))
    [Call_pa_log_debug; Call_pa_context_unref (context_id c)].
Proof.
  intros Hc Hst. unfold_progs. rewrite Hc. simpl. rewrite N.eqb_refl. simpl.
  destruct Hst as [-> | ->]; reflexivity.
Qed.

Lemma perform_no_connect a u :
  forallb (fun ev => negb (is_connect ev)) (trace_of (perform a u)) = true.
Proof.
  destruct a as [e | st | st pl fr | code r hr | st rw];
    try (eapply forallb_weaken;
         [| apply other_actions_quiet; discriminate];
         intros ev Hev; now apply andb_prop in Hev as [_ Hev]).
  rewrite perform_iterate. generalize (iter_no_connect e u).
  destruct (thread_iter e u); auto.
Qed.

Lemma run_no_connect acts u :
  forallb (fun ev => negb (is_connect ev)) (trace_of (run acts u)) = true.
Proof.
  revert u. induction acts as [|a acts IH]; intros u; [reflexivity|].
  rewrite run_cons_trace, forallb_app, perform_no_connect. simpl.
  destruct (perform a u); [apply IH | reflexivity].
Qed.

Lemma perform_keeps_context_absent a u x u' tr :
  context u = None -> perform a u = Returns x u' tr -> context u' = None.
Proof.
  intros Hc. destruct a as [e | st | st pl fr | code r hr | st rw].
  - rewrite perform_iterate.
    destruct (thread_iter e u) as [r u1 t1|] eqn:He; [|discriminate].
    intros H. inversion H; subst.
    apply thread_iter_frame in He. destruct He as (_ & _ & _ & _ & He & _).
    congruence.
  - unfold perform. unfold_progs. open_state u. subst.
    destruct sm as [[smid st0]|]; simpl; [rewrite N.eqb_refl; simpl|];
      try destruct st; simpl; intros H; inversion H; reflexivity.
  - unfold perform. unfold_progs. rewrite Hc. simpl.
    intros H; inversion H; subst; assumption.
  - unfold perform. unfold_progs. open_state u. subst.
    destruct code, sk as [[sid sst srw]|]; simpl; run_cases;
      intros H; inversion H; reflexivity.
  - unfold perform. unfold_progs. open_state u. subst.
    destruct sk as [[sid sst srw]|]; simpl;
      intros H; inversion H; reflexivity.
Qed.

Lemma run_keeps_context_absent acts u x u' tr :
  context u = None -> run acts u = Returns x u' tr -> context u' = None.
Proof.
  revert u tr. induction acts as [|a acts IH]; intros u tr Hc.
  - intros H; inversion H; subst; assumption.
  - cbn [run]. unfold bind.
    destruct (perform a u) as [y u1 t1|] eqn:Ha; [|discriminate].
    destruct (run acts u1) as [z u2 t2|] eqn:Hr; [|discriminate].
    intros H; inversion H; subst.
    eapply IH; [|exact Hr]. eapply perform_keeps_context_absent; eassumption.
Qed.

(** C7.  When the connection enters Failed or Terminated, in both cases
    the context handle is released and cleared to NULL and [connected] is
    cleared to false; afterwards, whatever the module does, it never calls
    pa_context_connect again and the context stays absent. *)
Theorem connection_failure_is_final u c pl fr :
  context u = Some c ->
  (context_state c = PA_CONTEXT_FAILED \/
   context_state c = PA_CONTEXT_TERMINATED) ->
  context_state_callback (Some (context_id c)) pl fr u =
    Returns tt (set_connected false (set_context None u))
      [Call_pa_log_debug; Call_pa_context_unref (context_id c)] /\
  context (set_connected false (set_context None u)) = None /\
  connected (set_connected false (set_context None u)) = false /\
  forall acts,
    forallb (fun ev => negb (is_connect ev))
      (trace_of (run acts (set_connected false (set_context None u)))) = true /\
    forall x u' tr,
      run acts (set_connected false (set_context None u)) = Returns x u' tr ->
      context u' = None.
Proof.
  intros Hc Hst. split; [now apply context_failure_clears|].
  repeat split.
  - apply run_no_connect.
  - intros x u' tr. now apply run_keeps_context_absent.
Qed.

(** ** The latency message *)

(** With a stream in the slot the handler stores zero when the sink is
    not linked or the query fails, and the reported latency, unmodified,
    otherwise; it returns 0 in each case. *)
Lemma get_latency_cases u k r hr :
  sink u = Some k ->
  (PA_SINK_IS_LINKED (thread_info_state k) = false ->
   sink_process_msg_cb PA_SINK_MESSAGE_GET_LATENCY r hr u =
   Returns (mk_result 0 (Some 0%N)) u []) /\
  (forall s,
     PA_SINK_IS_LINKED (thread_info_state k) = true ->
     stream u = Some s -> (lat_ret r < 0)%Z ->
     sink_process_msg_cb PA_SINK_MESSAGE_GET_LATENCY r hr u =
     Returns (mk_result 0 (Some 0%N)) u
       [Call_pa_stream_get_latency (stream_id s)]) /\
  (forall s,
     PA_SINK_IS_LINKED (thread_info_state k) = true ->
     stream u = Some s -> (0 <= lat_ret r)%Z ->
     sink_process_msg_cb PA_SINK_MESSAGE_GET_LATENCY r hr u =
     Returns (mk_result 0 (Some (lat_usec r))) u
       [Call_pa_stream_get_latency (stream_id s)]).
Proof.
  intros Hk. unfold_progs. simpl. rewrite Hk. simpl. repeat split.
  - intros ->. reflexivity.
  - intros s Hl Hs Hr. rewrite Hl. simpl. rewrite Hs. simpl.
    apply Z.ltb_lt in Hr. now rewrite Hr.
  - intros s Hl Hs Hr. rewrite Hl. simpl. rewrite Hs. simpl.
    apply Z.ltb_ge in Hr. now rewrite Hr.
Qed.

(** C8.  A GetLatency message that arrives while the sink is linked and
    the stream slot is NULL is not answered with zero: the handler hands
    the absent handle to the latency query and faults. *)
Theorem get_latency_absent_stream u k r hr :
  sink u = Some k ->
  PA_SINK_IS_LINKED (thread_info_state k) = true ->
  stream u = None ->
  sink_process_msg_cb PA_SINK_MESSAGE_GET_LATENCY r hr u =
  Faults NullHandle [].
Proof.
  intros Hk Hl Hs. unfold_progs. simpl. rewrite Hk. simpl. rewrite Hl. simpl.
  now rewrite Hs.
Qed.

End Facts.

(** ** Activation *)

Section Init.
Context {host : HostSink}.

Lemma pa__done_fresh m :
  module_userdata m = None -> pa__done m = Returns tt m [].
Proof. intros H. unfold pa__done, bind, get, ret. now rewrite H. Qed.

Lemma init_fail_fresh ma m :
  module_userdata m = None ->
  init_fail ma None m =
  Returns (-1)%Z m
    match ma with
    | Some a => [Call_pa_modargs_free (ma_id a)]
    | None => []
    end.
Proof.
  intros H.
  destruct ma; unfold init_fail, when_some, pa__done, bind, skip, ret, emit, get;
    simpl; rewrite H; reflexivity.
Qed.

(** C9.  When the remote endpoint address is absent from the arguments,
    activation of a fresh module fails: [pa__init] returns -1, the module
    is left without userdata, no sink was created or put, and every
    resource allocated up to the failure (the parsed arguments) has been
    released when it returns; the teardown routine [pa__done], which the
    failure path ends with, finds nothing left to release. *)
Theorem missing_remote_server_aborts_load e sink0 sink1 m :
  module_userdata m = None ->
  remote_server_of e = None ->
  pa__done m = Returns tt m [] /\
  exists tr,
    pa__init e sink0 sink1 m = Returns (-1)%Z m tr /\
    existsb registers tr = false /\
    outstanding [] tr = [] /\
    (forall ma, ie_modargs e = Some ma ->
       (0 <= ie_sample_spec_ret e)%Z ->
       tr = [Call_pa_modargs_new (Some (ma_id ma));
             Call_pa_modargs_get_sample_spec_and_channel_map (ma_id ma);
             Call_pa_log;
             Call_pa_modargs_free (ma_id ma)]).
Proof.
  intros Hm Hrs. split; [now apply pa__done_fresh|]. unfold remote_server_of in Hrs. unfold pa__init.
  destruct (ie_modargs e) as [ma|] eqn:Hma.
  - unfold bind at 1 2, emit at 1 2.
    destruct (ie_sample_spec_ret e <? 0)%Z eqn:Hss.
    + unfold bind, emit. rewrite (init_fail_fresh _ _ Hm). simpl.
      eexists; repeat split.
      * simpl. now rewrite N.eqb_refl.
      * intros ma' Heq Hge. apply Z.ltb_lt in Hss. lia.
    + rewrite Hrs. unfold bind, emit. rewrite (init_fail_fresh _ _ Hm). simpl.
      eexists; repeat split.
      * simpl. now rewrite N.eqb_refl.
      * intros ma' Heq _. now inversion Heq.
  - unfold bind, emit. rewrite (init_fail_fresh _ _ Hm). simpl.
    eexists; repeat split. intros ma' Heq. discriminate.
Qed.
End Init.

(** ** The theorems at work on the example module *)

Lemma state_gate_witness :
  transmit_branch_taken
    (trace_of (thread_iter example_env (example_userdata PA_STREAM_RUNNING)))
  = true /\
  thread_iter example_env (example_userdata PA_STREAM_TERMINATED) =
  Returns 1%Z (example_userdata PA_STREAM_TERMINATED)
    [Call_pa_rtclock_now; Call_pa_rtpoll_run].
Proof.
  split.
  - apply (proj1 (state_gate example_env (example_userdata PA_STREAM_RUNNING))).
    split; [reflexivity|].
    split; eexists; (split; [reflexivity|]); simpl; auto.
  - exact (proj1 (proj2 (state_gate example_env
                           (example_userdata PA_STREAM_TERMINATED)))
             _ _ eq_refl eq_refl eq_refl).
Defined.

Lemma backpressure_witness :
  existsb (fun ev => is_render ev || is_write ev)
    (trace_of (thread_iter stalled_env (example_userdata PA_STREAM_RUNNING)))
  = false /\
  count_calls is_render
    (trace_of (run [Iterate example_env; Iterate stalled_env;
                    Iterate example_env]
                 (example_userdata PA_STREAM_CORKED))) <= 2.
Proof.
  split.
  - apply (proj1 backpressure). reflexivity.
  - exact (proj2 backpressure
             [Iterate example_env; Iterate stalled_env; Iterate example_env]
             (example_userdata PA_STREAM_CORKED)).
Defined.

Lemma at_most_one_cell_witness :
  (pa_memchunk.length (memchunk (example_userdata PA_STREAM_RUNNING)) <= 0)%N
  /\
  one_cell false
    (trace_of (run [Iterate example_env; StreamEvent PA_STREAM_RUNNING;
                    Iterate example_env]
                 (example_userdata PA_STREAM_RUNNING))) = true.
Proof.
  split.
  - apply (proj1 at_most_one_cell example_env). reflexivity.
  - exact (proj2 (proj2 at_most_one_cell)
             [Iterate example_env; StreamEvent PA_STREAM_RUNNING;
              Iterate example_env]
             (example_userdata PA_STREAM_RUNNING)).
Defined.

Lemma write_then_release_witness :
  exists k s b i l,
    sink (example_userdata PA_STREAM_RUNNING) = Some k /\
    stream (example_userdata PA_STREAM_RUNNING) = Some s /\
    pa_memchunk.mk (Some b) i l = env_rendered example_env /\
    with_write_ret (env_write_ret example_env) example_env = example_env /\
    forall r,
      thread_iter (with_write_ret r example_env)
        (example_userdata PA_STREAM_RUNNING) =
      Returns 1%Z (example_userdata PA_STREAM_RUNNING)
        ([Call_pa_rtclock_now; Call_pa_stream_writable_size (stream_id s);
          Call_pa_sink_render 4096;
          Call_pa_memblock_acquire b;
          Call_pa_stream_write (stream_id s) b i l 0;
          Call_pa_memblock_release b;
          Call_pa_memblock_unref b] ++
         (if (r =? 0)%Z then [] else [Call_pa_log_warn]) ++
         [Call_pa_rtpoll_run]).
Proof.
  destruct (write_then_release example_env
              (example_userdata PA_STREAM_RUNNING) eq_refl)
    as (k & s & b & i & l & Hk & Hs & Hc & He & H).
  simpl in Hk. inversion Hk; subst k.
  exists (@mk_sink example_host 1%N SinkRunning false), s, b, i, l.
  repeat split; [exact Hs | exact Hc | exact H].
Defined.

Lemma poller_failure_path_witness :
  thread_func 5 [failing_env; example_env] example_queued =
  Returns ThreadExited
    (set_thread_mq
       (mk_mq [SINK_MESSAGE_PASS_SOCKET] [PA_CORE_MESSAGE_UNLOAD_MODULE])
       (set_timestamp 5 example_queued))
    [Call_pa_log_debug; Call_pa_thread_mq_install; Call_pa_rtclock_now;
     Call_pa_rtclock_now; Call_pa_stream_writable_size 7%N;
     Call_pa_rtpoll_run;
     Call_pa_asyncmsgq_post Outq PA_CORE_MESSAGE_UNLOAD_MODULE;
     Call_pa_asyncmsgq_wait_for PA_MESSAGE_SHUTDOWN;
     Call_pa_asyncmsgq_discard PA_SINK_MESSAGE_GET_LATENCY;
     Call_pa_log_debug] /\
  thread_func 5 [failing_env; example_env]
    (example_userdata PA_STREAM_RUNNING) =
  Returns ThreadWaiting
    (set_thread_mq (mk_mq [] [PA_CORE_MESSAGE_UNLOAD_MODULE])
       (set_timestamp 5 (example_userdata PA_STREAM_RUNNING)))
    [Call_pa_log_debug; Call_pa_thread_mq_install; Call_pa_rtclock_now;
     Call_pa_rtclock_now; Call_pa_stream_writable_size 7%N;
     Call_pa_rtpoll_run;
     Call_pa_asyncmsgq_post Outq PA_CORE_MESSAGE_UNLOAD_MODULE;
     Call_pa_asyncmsgq_wait_for PA_MESSAGE_SHUTDOWN].
Proof.
  split.
  - exact (proj1 (@poller_failure_path example_host 5 [] failing_env
                    [example_env] example_queued _ _ _ _
                    eq_refl eq_refl eq_refl)
             [PA_SINK_MESSAGE_GET_LATENCY] [SINK_MESSAGE_PASS_SOCKET]
             eq_refl
             (fun H => match H with
                       | or_introl E =>
                           eq_ind PA_SINK_MESSAGE_GET_LATENCY
                             (fun c => match c with
                                       | PA_MESSAGE_SHUTDOWN => False
                                       | _ => True
                                       end) I _ E
                       | or_intror F => F
                       end)).
  - exact (proj1 (proj2 (@poller_failure_path example_host 5 [] failing_env
                           [example_env] (example_userdata PA_STREAM_RUNNING)
                           _ _ _ _ eq_refl eq_refl eq_refl))
             (fun H => H)).
Defined.

Lemma absent_stream_not_observed_witness :
  stream_state_callback (Some 7%N) (example_userdata PA_STREAM_FAILED) =
    Returns tt example_no_stream
      [Call_pa_log_debug; Call_pa_stream_unref 7%N] /\
  thread_iter example_env example_no_stream =
    Faults NullHandle [Call_pa_rtclock_now] /\
  run [StreamEvent PA_STREAM_FAILED; Iterate example_env]
    (example_userdata PA_STREAM_RUNNING) =
    Faults NullHandle
      [Call_pa_log_debug; Call_pa_stream_unref 7%N; Call_pa_rtclock_now].
Proof.
  refine (conj (proj1 _) (conj (proj2 _) eq_refl)).
  all: exact (@absent_stream_not_observed example_host example_env
           (example_userdata PA_STREAM_FAILED)
           (mk_stream 7%N PA_STREAM_FAILED)
           (@mk_sink example_host 1%N SinkRunning false)
           eq_refl (or_introl eq_refl) eq_refl eq_refl).
Defined.

Lemma connection_failure_is_final_witness :
  context_state_callback (Some 3%N) 14%N (Some 8%N) example_context_failed =
    Returns tt
      (set_connected false (set_context None example_context_failed))
      [Call_pa_log_debug; Call_pa_context_unref 3%N] /\
  forallb (fun ev => negb (is_connect ev))
    (trace_of
       (run [Iterate example_env;
             Message SINK_MESSAGE_PASS_SOCKET (mk_latency 0 0 false) 0;
             Iterate example_env]
          (set_connected false (set_context None example_context_failed))))
  = true.
Proof.
  destruct (@connection_failure_is_final example_host example_context_failed
              (mk_context 3%N PA_CONTEXT_FAILED) 14%N (Some 8%N)
              eq_refl (or_introl eq_refl)) as (H1 & _ & _ & H2).
  split; [exact H1|].
  exact (proj1 (H2 _)).
Defined.

Lemma get_latency_absent_stream_witness :
  sink_process_msg_cb PA_SINK_MESSAGE_GET_LATENCY (mk_latency 0 2500 false) 0
    example_no_stream = Faults NullHandle [] /\
  (exists tr,
     pa__init example_init_env_remote SinkInit SinkRunning example_module =
     Returns 0%Z (mk_module 9%N (Some example_activated)) tr) /\
  sink_process_msg_cb PA_SINK_MESSAGE_GET_LATENCY (mk_latency 0 2500 false) 0
    example_activated = Faults NullHandle [].
Proof.
  split; [|split].
  - exact (@get_latency_absent_stream example_host example_no_stream
             (@mk_sink example_host 1%N SinkRunning false)
             (mk_latency 0 2500 false) 0 eq_refl eq_refl eq_refl).
  - eexists. reflexivity.
  - exact (@get_latency_absent_stream example_host example_activated
             (@mk_sink example_host 1%N SinkRunning false)
             (mk_latency 0 2500 false) 0 eq_refl eq_refl eq_refl).
Defined.

Lemma missing_remote_server_aborts_load_witness :
  pa__done example_module = Returns tt example_module [] /\
  exists tr,
    pa__init example_init_env SinkInit SinkRunning example_module =
      Returns (-1)%Z example_module tr /\
    existsb registers tr = false /\
    outstanding [] tr = [] /\
    (forall ma, ie_modargs example_init_env = Some ma ->
       (0 <= ie_sample_spec_ret example_init_env)%Z ->
       tr = [Call_pa_modargs_new (Some (ma_id ma));
             Call_pa_modargs_get_sample_spec_and_channel_map (ma_id ma);
             Call_pa_log;
             Call_pa_modargs_free (ma_id ma)]).
Proof.
  exact (@missing_remote_server_aborts_load example_host example_init_env
           SinkInit SinkRunning example_module eq_refl eq_refl).
Defined.

Lemma stream_failure_frame_witness :
  exists u',
    stream_state_callback (Some 7%N) (example_userdata PA_STREAM_TERMINATED) =
      Returns tt u' [Call_pa_log_debug; Call_pa_stream_unref 7%N] /\
    stream u' = None /\
    connected u' = true /\
    transmit_gate u' = Faults NullHandle [].
Proof.
  destruct (@stream_failure_frame example_host
              (example_userdata PA_STREAM_TERMINATED)
              (mk_stream 7%N PA_STREAM_TERMINATED)
              eq_refl (or_intror eq_refl))
    as (u' & H1 & H2 & _ & _ & _ & _ & _ & _ & _ & _ & _ & _ & _ & H3 & H4).
  exists u'. split; [exact H1|]. split; [exact H2|].
  split; [exact H3|]. rewrite (H4 eq_refl). reflexivity.
Defined.

(** ** Beyond the claims: more of what the code does *)

Section Coverage.
Context {host : HostSink}.

(** *** Single steps, for the compositions below *)

(** The pass that finds the stream corked. *)
Lemma uncork_step e u k s :
  sink u = Some k ->
  PA_SINK_IS_OPENED (thread_info_state k) = true ->
  connected u = true ->
  stream u = Some s ->
  stream_state s = PA_STREAM_CORKED ->
  thread_iter e u =
  Returns (env_poll_ret e)
    (set_stream (Some (mk_stream (stream_id s) PA_STREAM_RUNNING))
       (set_sink (Some (mk_sink (sink_id k) (thread_info_state k) false)) u))
    (prelude_calls k ++
     [Call_pa_stream_cork (stream_id s) 0; Call_pa_rtpoll_run]).
Proof.
  intros Hk Ho Hc Hs Hst. unfold prelude_calls. unfold_progs. open_state u.
  subst. destruct k as [sid sst srw], s as [smid st]; simpl in *. subst st.
  destruct srw; repeat (progress (simpl; rewrite ?Ho)); reflexivity.
Qed.

(** The pass that renders and writes. *)
Lemma write_step e u k s b i l :
  sink u = Some k ->
  PA_SINK_IS_OPENED (thread_info_state k) = true ->
  connected u = true ->
  stream u = Some s ->
  (stream_state s = PA_STREAM_CREATED \/ stream_state s = PA_STREAM_RUNNING) ->
  (0 < env_writable e)%N ->
  pa_memchunk.length (memchunk u) = 0%N ->
  env_rendered e = pa_memchunk.mk (Some b) i l ->
  (0 < l)%N ->
  thread_iter e u =
  Returns (env_poll_ret e)
    (set_memchunk pa_memchunk_reset
       (set_sink (Some (mk_sink (sink_id k) (thread_info_state k) false)) u))
    (prelude_calls k ++
     [Call_pa_stream_writable_size (stream_id s);
      Call_pa_sink_render (env_writable e);
      Call_pa_memblock_acquire b;
      Call_pa_stream_write (stream_id s) b i l 0;
      Call_pa_memblock_release b;
      Call_pa_memblock_unref b] ++
     (if (env_write_ret e =? 0)%Z then [] else [Call_pa_log_warn]) ++
     [Call_pa_rtpoll_run]).
Proof.
  intros Hk Ho Hc Hs Hst Hw Hl Hr Hl2. unfold prelude_calls. unfold_progs.
  destruct e as [nw wr rd wret pret]; simpl in *. subst rd.
  destruct u as [md sk rp mq th [mb ix ln] ad ch bu ts cx sm cn]; simpl in *.
  subst. destruct k as [sid sst srw], s as [smid st]; simpl in *.
  apply N.ltb_lt in Hw, Hl2.
  destruct srw; simpl; rewrite ?Ho; simpl;
    destruct Hst as [-> | ->]; simpl; rewrite ?Ho; simpl; rewrite ?Hw; simpl;
    rewrite ?Hl2; simpl; destruct (wret =? 0)%Z; reflexivity.
Qed.

(** The connection becomes ready and a stream is handed out. *)
Lemma ready_step u c k pl h :
  context u = Some c ->
  context_state c = PA_CONTEXT_READY ->
  stream u = None ->
  sink u = Some k ->
  context_state_callback (Some (context_id c)) pl (Some h) u =
  Returns tt
    (set_thread_mq
       (mk_mq (inq (thread_mq u) ++ [SINK_MESSAGE_PASS_SOCKET])
          (outq (thread_mq u)))
       (set_stream (Some (mk_stream h PA_STREAM_CORKED)) u))
    [Call_pa_log_debug; Call_pa_proplist_new pl;
     Call_pa_stream_new_with_proplist (context_id c) h;
     Call_pa_proplist_free pl;
     Call_pa_stream_set_state_callback h;
     Call_pa_stream_connect_playback h;
     Call_pa_asyncmsgq_post Inq SINK_MESSAGE_PASS_SOCKET].
Proof.
  intros Hc Hst Hs Hk. unfold_progs. open_state u. subst.
  destruct c as [cid st]; simpl in *; subst st.
  rewrite N.eqb_refl. reflexivity.
Qed.

Lemma run_cons_returns a acts u x u1 t1 :
  perform a u = Returns x u1 t1 ->
  trace_of (run (a :: acts) u) = t1 ++ trace_of (run acts u1).
Proof. intros H. rewrite run_cons_trace, H. reflexivity. Qed.

Lemma perform_context_event st pl fr u c :
  context u = Some c ->
  perform (ContextEvent st pl fr) u =
  context_state_callback (Some (context_id c)) pl fr
    (set_context (Some (mk_context (context_id c) st)) u).
Proof.
  intros Hc. unfold perform. unfold bind at 1. unfold get. rewrite Hc.
  unfold bind, modify.
  destruct (context_state_callback _ _ _ _); reflexivity.
Qed.

Lemma perform_message code r hr u :
  perform (Message code r hr) u =
  match sink_process_msg_cb code r hr u with
  | Returns _ u1 tr => Returns tt u1 tr
  | Faults f tr => Faults f tr
  end.
Proof.
  unfold perform, bind, ret. destruct (sink_process_msg_cb code r hr u);
    [|reflexivity]. now rewrite app_nil_r.
Qed.

(** *** What one pass and one action do to the struct *)

Lemma thread_iter_cell e u r u' tr :
  thread_iter e u = Returns r u' tr ->
  (existsb is_write tr = false /\ memchunk u' = memchunk u) \/
  (existsb is_write tr = true /\ memchunk u' = pa_memchunk_reset).
Proof.
  unfold_progs. open_state u.
  destruct sk as [[sid sst srw]|]; simpl; [|discriminate].
  destruct srw, (PA_SINK_IS_OPENED sst) eqn:Ho, cn,
    sm as [[smid [| | | |]]|]; simpl; run_cases;
    intros H; inversion H; subst; simpl; auto.
Qed.

Lemma perform_cell a u x u' tr :
  perform a u = Returns x u' tr ->
  memchunk u' = memchunk u \/ memchunk u' = pa_memchunk_reset.
Proof.
  destruct a as [e | st | st pl fr | code r hr | st rw].
  - rewrite perform_iterate.
    destruct (thread_iter e u) as [r u1 t1|] eqn:He; [|discriminate].
    intros H; inversion H; subst.
    destruct (@thread_iter_cell _ _ _ _ _ He) as [[_ Hm] | [_ Hm]]; auto.
  - intros H. left.
    eapply (proj2 (@other_actions_quiet _ (StreamEvent st) u
                     ltac:(discriminate))); eassumption.
  - intros H. left.
    eapply (proj2 (@other_actions_quiet _ (ContextEvent st pl fr) u
                     ltac:(discriminate))); eassumption.
  - intros H. left.
    eapply (proj2 (@other_actions_quiet _ (Message code r hr) u
                     ltac:(discriminate))); eassumption.
  - intros H. left.
    eapply (proj2 (@other_actions_quiet _ (SinkEvent st rw) u
                     ltac:(discriminate))); eassumption.
Qed.

Lemma perform_not_connected a u :
  connected u = false ->
  is_connection_message a = false ->
  existsb is_transmit_call (trace_of (perform a u)) = false /\
  forall x u' tr, perform a u = Returns x u' tr -> connected u' = false.
Proof.
  intros Hc Ha. destruct a as [e | st | st pl fr | code r hr | st rw].
  - rewrite perform_iterate. destruct (sink u) as [k|] eqn:Hk.
    + rewrite (@gate_closed_skips _ e u k Hk (or_introl Hc)). simpl.
      split.
      * unfold prelude_calls.
        destruct (thread_info_rewind_requested k),
          (PA_SINK_IS_OPENED (thread_info_state k)); reflexivity.
      * intros x u' tr H; inversion H; subst. exact Hc.
    + unfold_progs. rewrite Hk. simpl. split; [reflexivity|discriminate].
  - unfold perform. unfold_progs. open_state u. subst.
    destruct sm as [[smid st0]|]; simpl; [rewrite N.eqb_refl; simpl|];
      try destruct st; simpl;
      (split; [reflexivity | intros x u' tr H; inversion H; reflexivity]).
  - unfold perform. unfold_progs. open_state u. subst.
    destruct cx as [[cid st0]|]; simpl; [rewrite N.eqb_refl; simpl|];
      try (destruct st, sm as [[smid st1]|], sk as [[sid sst srw]|], fr);
      simpl;
      (split; [reflexivity | intros x u' tr H; inversion H; reflexivity]).
  - unfold perform. unfold_progs. open_state u. subst.
    destruct code; try discriminate;
      destruct sk as [[sid sst srw]|]; simpl; run_cases;
      (split; [reflexivity | intros x u' tr H; inversion H; reflexivity]).
  - unfold perform. unfold_progs. open_state u. subst.
    destruct sk as [[sid sst srw]|]; simpl;
      (split; [reflexivity | intros x u' tr H; inversion H; reflexivity]).
Qed.

Lemma run_not_connected acts u :
  connected u = false ->
  forallb (fun a => negb (is_connection_message a)) acts = true ->
  transmit_branch_taken (trace_of (run acts u)) = false /\
  forall x u' tr, run acts u = Returns x u' tr -> connected u' = false.
Proof.
  unfold transmit_branch_taken.
  revert u. induction acts as [|a acts IH]; intros u Hc Hacts.
  - split; [reflexivity|]. intros x u' tr H; inversion H; subst; exact Hc.
  - simpl in Hacts. apply andb_prop in Hacts as [Ha Hacts].
    apply negb_true_iff in Ha.
    destruct (perform_not_connected a u Hc Ha) as [H1 H2].
    rewrite run_cons_trace, existsb_app, H1. simpl.
    cbn [run]. unfold bind.
    destruct (perform a u) as [y u1 t1|] eqn:Hp.
    + specialize (H2 _ _ _ eq_refl).
      destruct (IH u1 H2 Hacts) as [H3 H4]. split; [exact H3|].
      intros x u' tr.
      destruct (run acts u1) as [z u2 t2|] eqn:Hr; [|discriminate].
      intros H; inversion H; subst. eapply H4; reflexivity.
    + split; [reflexivity | discriminate].
Qed.

Lemma thread_iter_control e u r u' tr :
  thread_iter e u = Returns r u' tr -> control_fields u' = control_fields u.
Proof.
  unfold control_fields. unfold_progs. open_state u.
  destruct sk as [[sid sst srw]|]; simpl; [|discriminate].
  destruct srw, (PA_SINK_IS_OPENED sst) eqn:Ho, cn,
    sm as [[smid [| | | |]]|]; simpl; run_cases;
    intros H; inversion H; subst; reflexivity.
Qed.


Lemma thread_iter_no_stream_new e u :
  existsb is_stream_new (trace_of (thread_iter e u)) = false.
Proof.
  unfold_progs. open_state u.
  destruct sk as [[sid sst srw]|]; simpl; [|reflexivity].
  destruct srw, (PA_SINK_IS_OPENED sst) eqn:Ho, cn,
    sm as [[smid [| | | |]]|]; simpl; run_cases; reflexivity.
Qed.

Lemma perform_keeps_stream_absent a u :
  stream u = None ->
  is_ready_event a = false ->
  existsb is_stream_new (trace_of (perform a u)) = false /\
  forall x u' tr, perform a u = Returns x u' tr -> stream u' = None.
Proof.
  intros Hs Ha. destruct a as [e | st | st pl fr | code r hr | st rw].
  - rewrite perform_iterate. pose proof (thread_iter_no_stream_new e u) as Hn.
    destruct (thread_iter e u) as [r u1 t1|] eqn:He; simpl in *.
    + split; [exact Hn|]. intros x u' tr H; inversion H; subst.
      apply thread_iter_control in He. unfold control_fields in He.
      inversion He as [[H1 H2 H3 H4 H5 H6 H7 H8 H9 H10 H11 H12 H13]].
      rewrite Hs in H11. destruct (stream u'); [discriminate|reflexivity].
    + split; [exact Hn|discriminate].
  - unfold perform. unfold_progs. rewrite Hs. simpl.
    split; [reflexivity | intros x u' tr H; inversion H; subst; exact Hs].
  - unfold perform. unfold_progs. open_state u. subst.
    destruct cx as [[cid st0]|]; simpl; [rewrite N.eqb_refl; simpl|];
      try (destruct st; try discriminate); simpl;
      (split; [reflexivity | intros x u' tr H; inversion H; reflexivity]).
  - unfold perform. unfold_progs. open_state u. subst.
    destruct code, sk as [[sid sst srw]|]; simpl; run_cases;
      (split; [reflexivity | intros x u' tr H; inversion H; reflexivity]).
  - unfold perform. unfold_progs. open_state u. subst.
    destruct sk as [[sid sst srw]|]; simpl;
      (split; [reflexivity | intros x u' tr H; inversion H; reflexivity]).
Qed.


(** *** The render thread *)

(** X1.  thread_func, lines 113-114: a pass calls [pa_sink_process_rewind]
    exactly when the sink has a rewind requested, as its first call and with
    zero bytes, never twice; after any pass that returns, the request flag
    of the sink is clear and the sink is otherwise the same. *)
Theorem rewind_request_drained e u k :
  sink u = Some k ->
  count_calls is_rewind (trace_of (thread_iter e u)) =
    (if thread_info_rewind_requested k then 1 else 0) /\
  (thread_info_rewind_requested k = true ->
   exists tr,
     trace_of (thread_iter e u) = Call_pa_sink_process_rewind 0 :: tr) /\
  (forall r u' tr, thread_iter e u = Returns r u' tr ->
     sink u' = Some (mk_sink (sink_id k) (thread_info_state k) false)).
Proof.
  intros Hk. unfold_progs. open_state u. subst.
  destruct k as [sid sst srw]; simpl.
  destruct srw, (PA_SINK_IS_OPENED sst) eqn:Ho, cn,
    sm as [[smid [| | | |]]|]; simpl; run_cases;
    (split; [reflexivity|]);
    (split; [first [discriminate | intros _; eexists; reflexivity]|]);
    intros r u' tr H; inversion H; reflexivity.
Qed.

(** X2.  thread_func, lines 119-126: when the gate is open and the stream
    is corked, the pass only uncorks it ([pa_stream_cork] with 0): it asks
    for no writable size, renders nothing and writes nothing, and goes on
    to the poll.  The stream is running afterwards (the corked and running
    states of the stream are those of the model of libpulse). *)
Theorem uncork_pass_sends_nothing e u k s :
  sink u = Some k ->
  PA_SINK_IS_OPENED (thread_info_state k) = true ->
  connected u = true ->
  stream u = Some s ->
  stream_state s = PA_STREAM_CORKED ->
  thread_iter e u =
  Returns (env_poll_ret e)
    (set_stream (Some (mk_stream (stream_id s) PA_STREAM_RUNNING))
       (set_sink (Some (mk_sink (sink_id k) (thread_info_state k) false)) u))
    (prelude_calls k ++
     [Call_pa_stream_cork (stream_id s) 0; Call_pa_rtpoll_run]).
Proof. exact (@uncork_step e u k s). Qed.

(** X3.  thread_func, lines 128-132: the code relies on the renderer to
    hand back a chunk that is not empty.  If the writable size is above
    zero, the cell is empty and [pa_sink_render] leaves a chunk of length
    0, the assertion [u->memchunk.length > 0] stops the thread right after
    the render: nothing is acquired, written or polled. *)
Theorem empty_render_trips_assertion e u k s :
  sink u = Some k ->
  PA_SINK_IS_OPENED (thread_info_state k) = true ->
  connected u = true ->
  stream u = Some s ->
  (stream_state s = PA_STREAM_CREATED \/ stream_state s = PA_STREAM_RUNNING) ->
  (0 < env_writable e)%N ->
  pa_memchunk.length (memchunk u) = 0%N ->
  pa_memchunk.length (env_rendered e) = 0%N ->
  thread_iter e u =
  Faults AssertFailed
    (prelude_calls k ++
     [Call_pa_stream_writable_size (stream_id s);
      Call_pa_sink_render (env_writable e)]).
Proof.
  intros Hk Ho Hc Hs Hst Hw Hl Hr. unfold prelude_calls. unfold_progs.
  destruct e as [nw wr [rb ri rl] wret pret].
  destruct u as [md sk rp mq th [mb ix ln] ad ch bu ts cx sm cn]; simpl in *.
  subst. destruct k as [sid sst srw], s as [smid st]; simpl in *.
  apply N.ltb_lt in Hw.
  destruct srw; simpl; rewrite ?Ho; simpl;
    destruct Hst as [-> | ->]; simpl; rewrite ?Ho; simpl; rewrite ?Hw; simpl;
    reflexivity.
Qed.

(** X4.  thread_func, lines 128-146, with the callbacks and the message
    handler: whatever passes, events and messages are run, when they all
    return the chunk of the struct is either the one the run started with
    or the reset chunk: nothing rendered is ever left in the struct from
    one pass to the next, and only the render thread touches the chunk. *)
Theorem cell_empty_between_passes acts u x u' tr :
  run acts u = Returns x u' tr ->
  memchunk u' = memchunk u \/ memchunk u' = pa_memchunk_reset.
Proof.
  revert u tr. induction acts as [|a acts IH]; intros u tr.
  - intros H; inversion H; auto.
  - cbn [run]. unfold bind.
    destruct (perform a u) as [y u1 t1|] eqn:Ha; [|discriminate].
    destruct (run acts u1) as [z u2 t2|] eqn:Hr; [|discriminate].
    intros H; inversion H; subst.
    destruct (IH _ _ Hr) as [H2 | H2]; [|auto].
    rewrite H2. eapply perform_cell; eassumption.
Qed.

(** X5.  thread_func, lines 119-121, and sink_process_msg_cb, lines
    289-292: [connected] is set by the connection message alone.  From a
    struct with [connected] false, a run of passes, stream events, context
    events, sink events and other messages never enters the transmit
    branch, not even after the connection became ready and the stream was
    created, and [connected] is still false at its end. *)
Theorem silent_until_connection_message acts u :
  connected u = false ->
  forallb (fun a => negb (is_connection_message a)) acts = true ->
  transmit_branch_taken (trace_of (run acts u)) = false /\
  forall x u' tr, run acts u = Returns x u' tr -> connected u' = false.
Proof. exact (@run_not_connected acts u). Qed.


(** X7.  thread_func, lines 155-159: the loop is left for [fail] only
    after a poll that returned a negative value and for [finish] only after
    a poll that returned 0; while every poll returns a positive value the
    loop goes on. *)
Theorem loop_left_on_poll_result envs u x u' tr :
  thread_loop envs u = Returns x u' tr ->
  match x with
  | GotoFail => exists e, In e envs /\ (env_poll_ret e < 0)%Z
  | GotoFinish => exists e, In e envs /\ env_poll_ret e = 0%Z
  | OutOfSamples => forall e, In e envs -> (0 < env_poll_ret e)%Z
  end.
Proof.
  revert u tr. induction envs as [|e envs IH]; intros u tr.
  - intros H; inversion H; subst. intros e [].
  - cbn [thread_loop]. unfold bind.
    destruct (thread_iter e u) as [r u1 t1|] eqn:He; [|discriminate].
    apply thread_iter_value in He. subst r.
    destruct (env_poll_ret e <? 0)%Z eqn:H1.
    { intros H; inversion H; subst. exists e. split; [now left|].
      now apply Z.ltb_lt. }
    destruct (env_poll_ret e =? 0)%Z eqn:H2.
    { intros H; inversion H; subst. exists e. split; [now left|].
      now apply Z.eqb_eq. }
    destruct (thread_loop envs u1) as [y u2 t2|] eqn:Hl; [|discriminate].
    intros H; inversion H; subst. specialize (IH _ _ Hl).
    apply Z.ltb_ge in H1. apply Z.eqb_neq in H2.
    destruct x.
    + destruct IH as (e' & Hin & Hr). exists e'. split; [now right|assumption].
    + destruct IH as (e' & Hin & Hr). exists e'. split; [now right|assumption].
    + intros e' [<- | Hin]; [lia | auto].
Qed.


(** *** The callbacks *)

(** X9.  stream_state_callback, line 176, and context_state_callback, line
    199: each callback asserts that the object libpulse passes is the one
    in the struct; called with any other pointer it stops at the assertion
    before it logs, releases or changes anything. *)
Theorem callbacks_check_their_pointer u p pl fr :
  ptr_eqb p (option_map stream_id (stream u)) = false ->
  ptr_eqb (option_map context_id (context u)) p = false ->
  stream_state_callback p u = Faults AssertFailed [] /\
  context_state_callback p pl fr u = Faults AssertFailed [].
Proof.
  intros Hs Hc. unfold_progs. rewrite Hs, Hc. split; reflexivity.
Qed.


(** X11.  context_state_callback, lines 208-245: when the connection is
    ready and no stream exists, the callback creates one stream on the
    context, frees the property list it made for it, registers the stream
    callback, connects the stream for playback (corked at start) and posts
    the connection message to the queue of the render thread, in this
    order; [connected] is not set by the callback itself. *)
Theorem ready_creates_corked_stream u c k pl h :
  context u = Some c ->
  context_state c = PA_CONTEXT_READY ->
  stream u = None ->
  sink u = Some k ->
  context_state_callback (Some (context_id c)) pl (Some h) u =
  Returns tt
    (set_thread_mq
       (mk_mq (inq (thread_mq u) ++ [SINK_MESSAGE_PASS_SOCKET])
          (outq (thread_mq u)))
       (set_stream (Some (mk_stream h PA_STREAM_CORKED)) u))
    [Call_pa_log_debug; Call_pa_proplist_new pl;
     Call_pa_stream_new_with_proplist (context_id c) h;
     Call_pa_proplist_free pl;
     Call_pa_stream_set_state_callback h;
     Call_pa_stream_connect_playback h;
     Call_pa_asyncmsgq_post Inq SINK_MESSAGE_PASS_SOCKET].
Proof. exact (@ready_step u c k pl h). Qed.

(** X12.  context_state_callback, line 213: a Ready event that arrives
    while a stream is still in the struct stops at the assertion
    [!u->stream], after the debug line and before any stream is made. *)
Theorem ready_with_live_stream_asserts u c s pl fr :
  context u = Some c ->
  context_state c = PA_CONTEXT_READY ->
  stream u = Some s ->
  context_state_callback (Some (context_id c)) pl fr u =
  Faults AssertFailed [Call_pa_log_debug].
Proof.
  intros Hc Hst Hs. unfold_progs. open_state u. subst.
  destruct c as [cid st]; simpl in *; subst st.
  rewrite N.eqb_refl. reflexivity.
Qed.

(** X13.  context_state_callback, lines 219-241: the result of
    [pa_stream_new_with_proplist] is not tested.  When no stream can be
    created the NULL it returns is stored and handed to
    [pa_stream_set_state_callback]: the callback faults on the absent
    handle, after the property list was made and freed. *)
Theorem failed_stream_creation_not_handled u c k pl :
  context u = Some c ->
  context_state c = PA_CONTEXT_READY ->
  stream u = None ->
  sink u = Some k ->
  context_state_callback (Some (context_id c)) pl None u =
  Faults NullHandle
    [Call_pa_log_debug; Call_pa_proplist_new pl; Call_pa_proplist_free pl].
Proof.
  intros Hc Hst Hs Hk. unfold_progs. open_state u. subst.
  destruct c as [cid st]; simpl in *; subst st.
  rewrite N.eqb_refl. reflexivity.
Qed.

(** X14.  context_state_callback, line 219, is the only place a stream is
    made: from a struct whose stream slot is NULL, a run of passes,
    messages and events with no Ready event among them creates no stream,
    and the slot is still NULL when the run returns.  Once a stream has
    failed, nothing short of a new Ready event brings one back. *)
Theorem stream_not_recreated acts u :
  stream u = None ->
  forallb (fun a => negb (is_ready_event a)) acts = true ->
  existsb is_stream_new (trace_of (run acts u)) = false /\
  forall x u' tr, run acts u = Returns x u' tr -> stream u' = None.
Proof.
  revert u. induction acts as [|a acts IH]; intros u Hs Hacts.
  - split; [reflexivity|]. intros x u' tr H; inversion H; subst; exact Hs.
  - simpl in Hacts. apply andb_prop in Hacts as [Ha Hacts].
    apply negb_true_iff in Ha.
    destruct (perform_keeps_stream_absent a u Hs Ha) as [H1 H2].
    rewrite run_cons_trace, existsb_app, H1. simpl.
    cbn [run]. unfold bind.
    destruct (perform a u) as [y u1 t1|] eqn:Hp.
    + specialize (H2 _ _ _ eq_refl).
      destruct (IH u1 H2 Hacts) as [H3 H4]. split; [exact H3|].
      intros x u' tr.
      destruct (run acts u1) as [z u2 t2|] eqn:Hr; [|discriminate].
      intros H; inversion H; subst. eapply H4; reflexivity.
    + split; [reflexivity | discriminate].
Qed.

(** X15.  context_state_callback, lines 246-258, with thread_func, lines
    119-121: when the connection fails or terminates the callback clears
    [connected] and leaves the stream and the sink in the struct; from
    then on no pass enters the transmit branch, whatever else happens,
    until a connection message arrives: the sink stays and relays
    nothing. *)
Theorem inert_after_connection_failure u c pl fr acts :
  context u = Some c ->
  (context_state c = PA_CONTEXT_FAILED \/
   context_state c = PA_CONTEXT_TERMINATED) ->
  forallb (fun a => negb (is_connection_message a)) acts = true ->
  exists u' tr0,
    context_state_callback (Some (context_id c)) pl fr u = Returns tt u' tr0 /\
    stream u' = stream u /\
    sink u' = sink u /\
    transmit_branch_taken (trace_of (run acts u')) = false.
Proof.
  intros Hc Hst Hacts. do 2 eexists.
  split; [now apply context_failure_clears|]. repeat split.
  now apply run_not_connected.
Qed.

(** *** The message handler *)

(** X16.  sink_process_msg_cb, lines 264-295: the connection message sets
    [connected], returns 0 and is not passed on; every message other than
    it and GetLatency goes to [pa_sink_process_msg], whose value is
    returned; and no message but the connection message changes the
    struct. *)
Theorem message_dispatch code r hr u :
  (code = SINK_MESSAGE_PASS_SOCKET ->
   sink_process_msg_cb code r hr u =
   Returns (mk_result 0 None) (set_connected true u) []) /\
  (code <> PA_SINK_MESSAGE_GET_LATENCY ->
   code <> SINK_MESSAGE_PASS_SOCKET ->
   sink_process_msg_cb code r hr u =
   Returns (mk_result hr None) u [Call_pa_sink_process_msg code]) /\
  (forall x u' tr,
     sink_process_msg_cb code r hr u = Returns x u' tr ->
     code <> SINK_MESSAGE_PASS_SOCKET -> u' = u).
Proof.
  split; [intros ->; reflexivity|]. split.
  - intros H1 H2. destruct code; try reflexivity; congruence.
  - intros x u' tr. unfold_progs. open_state u.
    destruct code, sk as [[sid sst srw]|], sm as [[smid st]|]; simpl;
      run_cases; intros H Hc; inversion H; subst; congruence.
Qed.

(** X17.  sink_process_msg_cb, lines 269-288: with a stream in the struct
    a GetLatency message is always answered: the handler returns 0, leaves
    the struct as it is, asks libpulse for the latency only when the sink
    is linked, and stores either the latency libpulse reported or 0; it
    stores the reported latency whenever the sink is linked and the query
    succeeded. *)
Theorem latency_answer u k s r hr :
  sink u = Some k ->
  stream u = Some s ->
  exists v,
    sink_process_msg_cb PA_SINK_MESSAGE_GET_LATENCY r hr u =
      Returns (mk_result 0 (Some v)) u
        (if PA_SINK_IS_LINKED (thread_info_state k)
         then [Call_pa_stream_get_latency (stream_id s)] else []) /\
    (v = lat_usec r \/ v = 0%N) /\
    (PA_SINK_IS_LINKED (thread_info_state k) = true ->
     (0 <= lat_ret r)%Z -> v = lat_usec r).
Proof.
  intros Hk Hs.
  destruct (@get_latency_cases _ u k r hr Hk) as (H1 & H2 & H3).
  destruct (PA_SINK_IS_LINKED (thread_info_state k)) eqn:Hl.
  - destruct (Z.lt_ge_cases (lat_ret r) 0) as [Hr | Hr].
    + exists 0%N. rewrite (H2 s eq_refl Hs Hr). repeat split; [now right | lia].
    + exists (lat_usec r). rewrite (H3 s eq_refl Hs Hr).
      repeat split; now left.
  - exists 0%N. rewrite (H1 eq_refl). repeat split; [now right | discriminate].
Qed.

(** X18.  sink_process_msg_cb, lines 270-288: the [negative] flag that
    [pa_stream_get_latency] sets is never read, and neither is the host's
    handler asked: the answer to GetLatency is the same whatever the flag
    and whatever [pa_sink_process_msg] would return. *)
Theorem latency_sign_ignored r hr hr' b u :
  sink_process_msg_cb PA_SINK_MESSAGE_GET_LATENCY r hr u =
  sink_process_msg_cb PA_SINK_MESSAGE_GET_LATENCY
    (mk_latency (lat_ret r) (lat_usec r) b) hr' u.
Proof.
  unfold_progs. open_state u.
  destruct sk as [[sid sst srw]|], sm as [[smid st]|]; simpl; run_cases;
    reflexivity.
Qed.

(** *** Activation and teardown *)

(** X19.  pa__init, lines 297-423: on a module without a struct pa__init
    always returns, with 0 when every step succeeds and -1 otherwise; the
    sink is put exactly when it returns 0; the parsed arguments are freed
    exactly once whenever they were parsed, on either path; and a failure
    before [pa_context_connect] leaves nothing allocated. *)
Theorem activation_result e sink0 sink1 m :
  module_userdata m = None ->
  exists m' tr,
    pa__init e sink0 sink1 m =
      Returns (if init_ok e then 0%Z else (-1)%Z) m' tr /\
    existsb is_sink_put tr = init_ok e /\
    count_calls is_modargs_free tr = (if is_null (ie_modargs e) then 0 else 1) /\
    (reaches_connect e = false -> outstanding [] tr = []).
Proof.
  intros Hm. unfold init_ok, reaches_connect, count_calls. unfold_init.
  destruct m as [mid mu]; simpl in Hm; subst mu.
  open_init e.
  2:{ do 2 eexists; repeat split; reflexivity. }
  destruct (ssr <? 0)%Z; simpl.
  { do 2 eexists; repeat split; simpl; try reflexivity.
    intros _; repeat (rewrite N.eqb_refl; simpl); reflexivity. }
  destruct (pa_modargs_get_value kv "remote_server" None); simpl.
  2:{ do 2 eexists; repeat split; simpl; try reflexivity.
      intros _; repeat (rewrite N.eqb_refl; simpl); reflexivity. }
  destruct (plr <? 0)%Z; simpl.
  { do 2 eexists; repeat split; simpl; try reflexivity.
    intros _; repeat (rewrite N.eqb_refl; simpl); reflexivity. }
  destruct sk as [sk|]; simpl.
  2:{ do 2 eexists; repeat split; simpl; try reflexivity.
      intros _; repeat (rewrite N.eqb_refl; simpl); reflexivity. }
  destruct cx as [cx|]; simpl.
  2:{ do 2 eexists; repeat split; simpl; try reflexivity.
      intros _; repeat (rewrite N.eqb_refl; simpl); reflexivity. }
  destruct (cr <? 0)%Z; simpl.
  { do 2 eexists; repeat split; simpl; try reflexivity. discriminate. }
  destruct th as [th|]; simpl;
    do 2 eexists; repeat split; simpl; try reflexivity; discriminate.
Qed.

(** X20.  pa__init, lines 297-410: when every step succeeds the module
    gets a struct with the sink, the poller, the thread and an unconnected
    context, an empty chunk, no stream and [connected] false; the property
    list of the context is freed once; and what is still allocated is the
    thread, the context, the sink, the poller and the struct: the
    arguments and the sink's construction data are gone. *)
Theorem activation_success e sink0 sink1 m :
  module_userdata m = None ->
  init_ok e = true ->
  exists ma sk c th tr,
    ie_modargs e = Some ma /\ ie_sink e = Some sk /\
    ie_context e = Some c /\ ie_thread e = Some th /\
    pa__init e sink0 sink1 m =
      Returns 0%Z
        (mk_module (module_id m)
           (Some (mk_userdata (module_id m)
                    (Some (mk_sink sk sink1 false)) (Some (ie_rtpoll e))
                    (mk_mq [] []) (Some th) pa_memchunk_reset false 0 0 0
                    (Some (mk_context c PA_CONTEXT_UNCONNECTED)) None false)))
        tr /\
    count_calls is_proplist_free tr = 1 /\
    outstanding [] tr =
      [R_thread th; R_context c; R_sink sk; R_rtpoll (ie_rtpoll e);
       R_userdata].
Proof.
  intros Hm Hok. unfold init_ok, reaches_connect, count_calls in *.
  unfold_init.
  destruct m as [mid mu]; simpl in Hm; subst mu.
  open_init e; [|discriminate].
  destruct (ssr <? 0)%Z; [discriminate|].
  destruct (pa_modargs_get_value kv "remote_server" None); [|discriminate].
  destruct (plr <? 0)%Z; [discriminate|].
  destruct sk as [sk|]; [|discriminate].
  destruct cx as [cx|]; [|discriminate].
  destruct (cr <? 0)%Z; [discriminate|].
  destruct th as [th|]; [|discriminate].
  simpl. exists (mk_modargs ma kv), sk, cx, th. eexists.
  repeat split; try reflexivity. balance.
Qed.


(** X22.  pa__done, lines 425-459: teardown always returns; it disconnects
    the stream and the context and never drops a reference on either; it
    sends the shutdown message exactly when a thread exists; when there is
    a struct its last call frees it; and [m->userdata] is left as it was,
    pointing at the freed struct. *)
Theorem teardown_keeps_libpulse_references m :
  exists tr,
    pa__done m = Returns tt m tr /\
    existsb is_handle_unref tr = false /\
    count_calls is_shutdown_send tr =
      match module_userdata m with
      | Some u => if is_null (thread u) then 0 else 1
      | None => 0
      end /\
    (module_userdata m <> None -> last tr Call_pa_log = Call_pa_xfree).
Proof.
  unfold count_calls. unfold_init. destruct m as [mid [u|]]; simpl.
  - destruct u as [md sk rp mq th [mb ix ln] ad ch bu ts cx sm cn]; simpl.
    destruct sk, th, sm, cx, rp, mb; simpl;
      eexists; repeat split; reflexivity.
  - eexists; repeat split. intros H; now elim H.
Qed.


(** *** From the ready connection to the first write *)

(** X24.  context_state_callback, sink_process_msg_cb and thread_func
    together: from an activated module (context present, no stream, not
    connected, sink opened, empty chunk), the Ready event, the connection
    message and two passes make exactly these calls in this order: the
    stream is created and connected, the message is posted, the first pass
    uncorks the stream and the second one renders one chunk, writes it and
    releases it. *)
Theorem connection_lifecycle u c k pl h r hr e1 e2 b i l :
  context u = Some c ->
  stream u = None ->
  connected u = false ->
  sink u = Some k ->
  PA_SINK_IS_OPENED (thread_info_state k) = true ->
  thread_info_rewind_requested k = false ->
  pa_memchunk.length (memchunk u) = 0%N ->
  (0 < env_writable e2)%N ->
  env_rendered e2 = pa_memchunk.mk (Some b) i l ->
  (0 < l)%N ->
  trace_of
    (run [ContextEvent PA_CONTEXT_READY pl (Some h);
          Message SINK_MESSAGE_PASS_SOCKET r hr;
          Iterate e1; Iterate e2] u) =
  [Call_pa_log_debug; Call_pa_proplist_new pl;
   Call_pa_stream_new_with_proplist (context_id c) h;
   Call_pa_proplist_free pl;
   Call_pa_stream_set_state_callback h;
   Call_pa_stream_connect_playback h;
   Call_pa_asyncmsgq_post Inq SINK_MESSAGE_PASS_SOCKET] ++
  [Call_pa_rtclock_now; Call_pa_stream_cork h 0; Call_pa_rtpoll_run] ++
  [Call_pa_rtclock_now; Call_pa_stream_writable_size h;
   Call_pa_sink_render (env_writable e2);
   Call_pa_memblock_acquire b; Call_pa_stream_write h b i l 0;
   Call_pa_memblock_release b; Call_pa_memblock_unref b] ++
  (if (env_write_ret e2 =? 0)%Z then [] else [Call_pa_log_warn]) ++
  [Call_pa_rtpoll_run].
Proof.
  intros Hc Hs Hn Hk Ho Hrw Hl Hw Hr Hl2.
  destruct k as [sid sst srw]; simpl in Ho, Hrw; subst srw.
  (* the connection becomes ready *)
  erewrite run_cons_returns;
    [| rewrite (@perform_context_event _ _ _ _ _ Hc);
       eapply (@ready_step _ (mk_context (context_id c) PA_CONTEXT_READY));
         [reflexivity | reflexivity | exact Hs | exact Hk] ].
  (* the render thread is told *)
  erewrite run_cons_returns; [| rewrite perform_message; reflexivity].
  (* first pass: uncork *)
  erewrite run_cons_returns;
    [| rewrite perform_iterate;
       erewrite (@uncork_step e1 _ (mk_sink sid sst false)
                   (mk_stream h PA_STREAM_CORKED));
         [reflexivity | exact Hk | exact Ho | reflexivity | reflexivity
         | reflexivity] ].
  (* second pass: render and write *)
  erewrite run_cons_returns;
    [| rewrite perform_iterate;
       erewrite (@write_step e2 _ (mk_sink sid sst false)
                   (mk_stream h PA_STREAM_RUNNING) b i l);
         [reflexivity | reflexivity | exact Ho | reflexivity | reflexivity
         | now right | exact Hw | exact Hl | exact Hr | exact Hl2] ].
  unfold prelude_calls. simpl. rewrite Ho. simpl.
  now rewrite app_nil_r.
Qed.

End Coverage.

(** ** These properties at work on the example module *)

Lemma rewind_request_drained_witness :
  count_calls is_rewind (trace_of (thread_iter example_env example_rewind))
  = 1 /\
  exists tr,
    trace_of (thread_iter example_env example_rewind) =
    Call_pa_sink_process_rewind 0 :: tr.
Proof.
  destruct (@rewind_request_drained example_host example_env example_rewind
              (@mk_sink example_host 1%N SinkRunning true) eq_refl)
    as (H1 & H2 & _).
  split; [exact H1 | exact (H2 eq_refl)].
Defined.

Lemma uncork_pass_sends_nothing_witness :
  thread_iter example_env (example_userdata PA_STREAM_CORKED) =
  Returns 1%Z (example_userdata PA_STREAM_RUNNING)
    [Call_pa_rtclock_now; Call_pa_stream_cork 7%N 0; Call_pa_rtpoll_run].
Proof.
  exact (@uncork_pass_sends_nothing example_host example_env
           (example_userdata PA_STREAM_CORKED)
           (@mk_sink example_host 1%N SinkRunning false)
           (mk_stream 7%N PA_STREAM_CORKED)
           eq_refl eq_refl eq_refl eq_refl eq_refl).
Defined.

Lemma empty_render_trips_assertion_witness :
  thread_iter empty_render_env (example_userdata PA_STREAM_RUNNING) =
  Faults AssertFailed
    [Call_pa_rtclock_now; Call_pa_stream_writable_size 7%N;
     Call_pa_sink_render 4096%N].
Proof.
  exact (@empty_render_trips_assertion example_host empty_render_env
           (example_userdata PA_STREAM_RUNNING)
           (@mk_sink example_host 1%N SinkRunning false)
           (mk_stream 7%N PA_STREAM_RUNNING)
           eq_refl eq_refl eq_refl eq_refl (or_intror eq_refl)
           eq_refl eq_refl eq_refl).
Defined.

Lemma cell_empty_between_passes_witness :
  exists u' tr,
    run [Iterate example_env; StreamEvent PA_STREAM_RUNNING;
         Iterate stalled_env; Iterate example_env]
      (example_userdata PA_STREAM_CORKED) = Returns tt u' tr /\
    (memchunk u' = memchunk (example_userdata PA_STREAM_CORKED) \/
     memchunk u' = pa_memchunk_reset).
Proof.
  do 2 eexists. split; [reflexivity|].
  exact (@cell_empty_between_passes example_host
           [Iterate example_env; StreamEvent PA_STREAM_RUNNING;
            Iterate stalled_env; Iterate example_env]
           (example_userdata PA_STREAM_CORKED) tt _ _ eq_refl).
Defined.

Lemma silent_until_connection_message_witness :
  transmit_branch_taken
    (trace_of (run [Iterate example_env;
                    ContextEvent PA_CONTEXT_READY 20%N (Some 7%N);
                    Iterate example_env]
                 example_activated)) = false.
Proof.
  exact (proj1 (@silent_until_connection_message example_host
                  [Iterate example_env;
                   ContextEvent PA_CONTEXT_READY 20%N (Some 7%N);
                   Iterate example_env]
                  example_activated eq_refl eq_refl)).
Defined.


Lemma loop_left_on_poll_result_witness :
  (exists e, In e [example_env; failing_env; example_env] /\
             (env_poll_ret e < 0)%Z) /\
  (exists e, In e [example_env; finishing_env] /\ env_poll_ret e = 0%Z).
Proof.
  split.
  - exact (@loop_left_on_poll_result example_host
             [example_env; failing_env; example_env]
             (example_userdata PA_STREAM_RUNNING) GotoFail _ _ eq_refl).
  - exact (@loop_left_on_poll_result example_host
             [example_env; finishing_env]
             (example_userdata PA_STREAM_RUNNING) GotoFinish _ _ eq_refl).
Defined.


Lemma callbacks_check_their_pointer_witness :
  stream_state_callback (Some 99%N) (example_userdata PA_STREAM_FAILED) =
    Faults AssertFailed [] /\
  context_state_callback (Some 99%N) 20%N (Some 21%N)
    (example_userdata PA_STREAM_FAILED) = Faults AssertFailed [].
Proof.
  exact (@callbacks_check_their_pointer example_host
           (example_userdata PA_STREAM_FAILED) (Some 99%N) 20%N (Some 21%N)
           eq_refl eq_refl).
Defined.


Lemma ready_creates_corked_stream_witness :
  context_state_callback (Some 3%N) 20%N (Some 7%N) example_context_ready =
  Returns tt
    (set_thread_mq (mk_mq [SINK_MESSAGE_PASS_SOCKET] [])
       (set_stream (Some (mk_stream 7%N PA_STREAM_CORKED))
          example_context_ready))
    [Call_pa_log_debug; Call_pa_proplist_new 20%N;
     Call_pa_stream_new_with_proplist 3%N 7%N;
     Call_pa_proplist_free 20%N;
     Call_pa_stream_set_state_callback 7%N;
     Call_pa_stream_connect_playback 7%N;
     Call_pa_asyncmsgq_post Inq SINK_MESSAGE_PASS_SOCKET].
Proof.
  exact (@ready_creates_corked_stream example_host example_context_ready
           (mk_context 3%N PA_CONTEXT_READY)
           (@mk_sink example_host 1%N SinkRunning false) 20%N 7%N
           eq_refl eq_refl eq_refl eq_refl).
Defined.

Lemma ready_with_live_stream_asserts_witness :
  context_state_callback (Some 3%N) 20%N (Some 21%N)
    (example_userdata PA_STREAM_RUNNING) =
  Faults AssertFailed [Call_pa_log_debug].
Proof.
  exact (@ready_with_live_stream_asserts example_host
           (example_userdata PA_STREAM_RUNNING)
           (mk_context 3%N PA_CONTEXT_READY)
           (mk_stream 7%N PA_STREAM_RUNNING) 20%N (Some 21%N)
           eq_refl eq_refl eq_refl).
Defined.

Lemma failed_stream_creation_not_handled_witness :
  context_state_callback (Some 3%N) 20%N None example_context_ready =
  Faults NullHandle
    [Call_pa_log_debug; Call_pa_proplist_new 20%N;
     Call_pa_proplist_free 20%N].
Proof.
  exact (@failed_stream_creation_not_handled example_host
           example_context_ready (mk_context 3%N PA_CONTEXT_READY)
           (@mk_sink example_host 1%N SinkRunning false) 20%N
           eq_refl eq_refl eq_refl eq_refl).
Defined.

Lemma stream_not_recreated_witness :
  existsb is_stream_new
    (trace_of (run [Iterate example_env;
                    ContextEvent PA_CONTEXT_CONNECTING 20%N (Some 21%N);
                    Message SINK_MESSAGE_PASS_SOCKET
                      (mk_latency 0 250 false) 0;
                    StreamEvent PA_STREAM_RUNNING;
                    Iterate example_env]
                 example_no_stream)) = false.
Proof.
  exact (proj1 (@stream_not_recreated example_host
                  [Iterate example_env;
                   ContextEvent PA_CONTEXT_CONNECTING 20%N (Some 21%N);
                   Message SINK_MESSAGE_PASS_SOCKET
                     (mk_latency 0 250 false) 0;
                   StreamEvent PA_STREAM_RUNNING;
                   Iterate example_env]
                  example_no_stream eq_refl eq_refl)).
Defined.

Lemma inert_after_connection_failure_witness :
  exists u' tr0,
    context_state_callback (Some 3%N) 20%N None example_context_failed =
      Returns tt u' tr0 /\
    stream u' = stream example_context_failed /\
    sink u' = sink example_context_failed /\
    transmit_branch_taken
      (trace_of (run [Iterate example_env; StreamEvent PA_STREAM_RUNNING;
                      Iterate example_env] u')) = false.
Proof.
  exact (@inert_after_connection_failure example_host example_context_failed
           (mk_context 3%N PA_CONTEXT_FAILED) 20%N None
           [Iterate example_env; StreamEvent PA_STREAM_RUNNING;
            Iterate example_env]
           eq_refl (or_introl eq_refl) eq_refl).
Defined.

Lemma latency_answer_witness :
  exists v,
    sink_process_msg_cb PA_SINK_MESSAGE_GET_LATENCY
      (mk_latency 0 250 true) 0 (example_userdata PA_STREAM_RUNNING) =
      Returns (mk_result 0 (Some v)) (example_userdata PA_STREAM_RUNNING)
        [Call_pa_stream_get_latency 7%N] /\
    v = 250%N.
Proof.
  destruct (@latency_answer example_host (example_userdata PA_STREAM_RUNNING)
              (@mk_sink example_host 1%N SinkRunning false)
              (mk_stream 7%N PA_STREAM_RUNNING) (mk_latency 0 250 true) 0
              eq_refl eq_refl) as (v & H1 & _ & H2).
  exists v. split; [exact H1|]. apply H2; [reflexivity | discriminate].
Defined.

Lemma activation_result_witness :
  (exists m' tr,
     pa__init example_init_env_remote SinkInit SinkRunning example_module =
       Returns 0%Z m' tr /\
     existsb is_sink_put tr = true /\
     count_calls is_modargs_free tr = 1 /\
     (reaches_connect example_init_env_remote = false ->
      outstanding [] tr = [])) /\
  (exists m' tr,
     pa__init example_init_env SinkInit SinkRunning example_module =
       Returns (-1)%Z m' tr /\
     existsb is_sink_put tr = false /\
     count_calls is_modargs_free tr = 1 /\
     (reaches_connect example_init_env = false -> outstanding [] tr = [])).
Proof.
  split.
  - exact (@activation_result example_host example_init_env_remote
             SinkInit SinkRunning example_module eq_refl).
  - exact (@activation_result example_host example_init_env
             SinkInit SinkRunning example_module eq_refl).
Defined.

Lemma activation_success_witness :
  exists tr,
    pa__init example_init_env_remote SinkInit SinkRunning example_module =
      Returns 0%Z (mk_module 9%N (Some example_activated)) tr /\
    count_calls is_proplist_free tr = 1 /\
    outstanding [] tr =
      [R_thread 4%N; R_context 3%N; R_sink 1%N; R_rtpoll 12%N; R_userdata].
Proof.
  destruct (@activation_success example_host example_init_env_remote
              SinkInit SinkRunning example_module eq_refl eq_refl)
    as (ma & sk & c & th & tr & _ & Hsk & Hc & Hth & H1 & H2 & H3).
  injection Hsk as <-. injection Hc as <-. injection Hth as <-.
  exists tr. split; [exact H1|]. split; [exact H2 | exact H3].
Defined.



Lemma connection_lifecycle_witness :
  trace_of
    (run [ContextEvent PA_CONTEXT_READY 20%N (Some 7%N);
          Message SINK_MESSAGE_PASS_SOCKET (mk_latency 0 250 false) 0;
          Iterate example_env; Iterate example_env] example_activated) =
  [Call_pa_log_debug; Call_pa_proplist_new 20%N;
   Call_pa_stream_new_with_proplist 3%N 7%N;
   Call_pa_proplist_free 20%N;
   Call_pa_stream_set_state_callback 7%N;
   Call_pa_stream_connect_playback 7%N;
   Call_pa_asyncmsgq_post Inq SINK_MESSAGE_PASS_SOCKET;
   Call_pa_rtclock_now; Call_pa_stream_cork 7%N 0; Call_pa_rtpoll_run;
   Call_pa_rtclock_now; Call_pa_stream_writable_size 7%N;
   Call_pa_sink_render 4096%N;
   Call_pa_memblock_acquire 5%N; Call_pa_stream_write 7%N 5%N 0 4096 0;
   Call_pa_memblock_release 5%N; Call_pa_memblock_unref 5%N;
   Call_pa_rtpoll_run].
Proof.
  exact (@connection_lifecycle example_host example_activated
           (mk_context 3%N PA_CONTEXT_UNCONNECTED)
           (@mk_sink example_host 1%N SinkRunning false)
           20%N 7%N (mk_latency 0 250 false) 0 example_env example_env
           5%N 0%N 4096%N
           eq_refl eq_refl eq_refl eq_refl eq_refl eq_refl eq_refl
           eq_refl eq_refl eq_refl).
Defined.
